(** * daily-picks: portfolio state reconciliation

    A shallow embedding of the reconciliation logic of the dashboard:
    - [App.handleRefreshMarketData]      (App.tsx, market refresh merge)
    - [Dashboard.summary]                (components/Dashboard.tsx)
    - [SidebarChat.handleSend]           (components/SidebarChat.tsx)
    - [GeminiService.fetchStockNews],
      [GeminiService.parseTradeScreenshot] (services/geminiService.ts)
    - [AddAssetModal.handleFileChange]   (components/AddAssetModal.tsx)
    - [Portfolio.handleAddAsset]         (App.tsx)
    - [MarketFeed.updateMarketPrices],
      [MarketFeed.generateStockIcon]     (services/geminiService.ts)
    - [Dashboard64.summary], [DashboardView.historyData],
      [DashboardView.getNews] and the news panel
                                         (components/Dashboard.tsx)
    - [AssetForm.handleSubmit]           (components/AddAssetModal.tsx)
    - [ChatStream.portfolioContext]      (components/SidebarChat.tsx)

    Modelling conventions.
    - A JavaScript [number] is a binary64 float where a property depends
      on the arithmetic ([Dashboard64]: the summary reducer); elsewhere
      it is an exact rational ([Q]), which leaves rounding, NaN and the
      infinities out and is used only for values that are copied and
      compared, and for properties that rounding does not affect.
    - A JavaScript string is a [string] of bytes; [toUpperCase] and [trim]
      act on the ASCII range and leave every other byte alone.
    - An object used as a mapping is the list of its [Object.entries], in
      enumeration order.
    - [Date.now()] is an oracle [nat -> Z]: the reading taken by the
      [map] callback while it processes the record at a given index;
      [Math.random()] is an oracle of the same kind.
    - React state setters are explicit state passing; a rejected promise is
      a [Throw] completion that skips the rest of the enclosing function body. *)

From Stdlib Require Import String Ascii List Bool Arith ZArith QArith Lia Lqa.
From Stdlib Require PrimFloat.
Import ListNotations.

Local Open Scope string_scope.
Local Open Scope list_scope.

(* ================================================================== *)
(** ** JavaScript string primitives used by the sources *)

Module JsString.

(** [String.prototype.toUpperCase], ASCII range. *)
Definition upcaseAscii (c : ascii) : ascii :=
  let n := nat_of_ascii c in
  if ((97 <=? n) && (n <=? 122))%nat then ascii_of_nat (n - 32) else c.

Fixpoint toUpperCase (s : string) : string :=
  match s with
  | EmptyString => EmptyString
  | String c r => String (upcaseAscii c) (toUpperCase r)
  end.

(** White space and line terminators of the ASCII range:
    TAB, LF, VT, FF, CR and SPACE. *)
Definition isSpace (c : ascii) : bool :=
  let n := nat_of_ascii c in
  ((9 <=? n) && (n <=? 13) || (n =? 32))%nat.

Fixpoint trimStart (s : string) : string :=
  match s with
  | EmptyString => EmptyString
  | String c r => if isSpace c then trimStart r else s
  end.

(** [trimEnd] drops the trailing white space: a character is kept when
    something is left after trimming what follows it, or when it is
    itself not white space. *)
Fixpoint trimEnd (s : string) : string :=
  match s with
  | EmptyString => EmptyString
  | String c r =>
      match trimEnd r with
      | EmptyString => if isSpace c then EmptyString else String c EmptyString
      | r' => String c r'
      end
  end.

Definition trim (s : string) : string := trimEnd (trimStart s).

Definition isEmpty (s : string) : bool :=
  match s with EmptyString => true | _ => false end.

(** [s.startsWith(p)] *)
Fixpoint startsWith (p s : string) : bool :=
  match p, s with
  | EmptyString, _ => true
  | String _ _, EmptyString => false
  | String a p', String b s' => Ascii.eqb a b && startsWith p' s'
  end.

(** [s.includes(p)] *)
Fixpoint includes (p s : string) : bool :=
  startsWith p s ||
  match s with
  | EmptyString => false
  | String _ s' => includes p s'
  end.

Fixpoint rev_append (acc s : string) : string :=
  match acc with
  | EmptyString => s
  | String c r => rev_append r (String c s)
  end.

(** [s.split(sep)] for a non-empty separator: leftmost, non-overlapping
    occurrences.  [skip] counts the characters of a matched separator
    still to be passed over; [cur] is the current piece, reversed. *)
Fixpoint splitFrom (sep : string) (skip : nat) (cur : string) (s : string)
  : list string :=
  match s with
  | EmptyString => [rev_append cur EmptyString]
  | String c r =>
      match skip with
      | S k => splitFrom sep k cur r
      | O =>
          if startsWith sep s
          then rev_append cur EmptyString
                 :: splitFrom sep (String.length sep - 1) EmptyString r
          else splitFrom sep 0 (String c cur) r
      end
  end.

Definition split (sep s : string) : list string :=
  splitFrom sep 0 EmptyString s.

(** [Array.prototype.join] *)
Fixpoint join (sep : string) (l : list string) : string :=
  match l with
  | [] => EmptyString
  | [x] => x
  | x :: r => x ++ sep ++ join sep r
  end.

End JsString.

(* ================================================================== *)
(** ** JSON values, as [JSON.parse] returns them *)

Module Js.

#[warnings="-register-all"]
Inductive Json : Type :=
| JNull
| JBool (b : bool)
| JNumber (x : Q)
| JString (s : string)
| JArray (items : list Json)
| JObject (entries : list (string * Json)).

(** A number is truthy unless it is zero. *)
Definition truthyNumber (x : Q) : bool := negb (Qeq_bool x 0).

(** ToBoolean *)
Definition truthy (v : Json) : bool :=
  match v with
  | JNull => false
  | JBool b => b
  | JNumber x => truthyNumber x
  | JString s => negb (JsString.isEmpty s)
  | JArray _ => true
  | JObject _ => true
  end.

End Js.

(* ================================================================== *)
(** ** types.ts *)

Module Types.

(** Modelled from the spec: the [AISource] enum of types.ts, of which the
    sources only name the member [GEMINI]; the other attribution labels
    are kept by name. *)
Inductive AISource : Type :=
| GEMINI
| OtherSource (label : string).

(** [StockAsset], with the fields the sources read and write. *)
Record StockAsset : Type := mkAsset {
  id : string;
  ticker : string;
  companyName : string;
  quantity : Q;
  avgPrice : Q;
  currentPrice : Q;
  source : AISource;
  iconUrl : option string;
  lastUpdated : Z
}.

End Types.

(* ================================================================== *)
(** ** App.tsx: market refresh *)

Module App.
Import Types Js.

(** What [updateMarketPrices] resolves to when it is not [null].  [prices]
    is the list of entries of the object, in enumeration order; the keys of
    an object are pairwise different strings, which nothing below relies
    on. *)
Record MarketData : Type := mkMarketData {
  prices : option (list (string * Json));
  usdJpy : option Q
}.

Record State : Type := mkState {
  assets : list StockAsset;
  usdJpyRate : Q;
  isRefreshingMarket : bool
}.

(** [Object.entries(prices).find(([t, p]) =>
       t.toUpperCase() === asset.ticker.toUpperCase())] *)
Definition findEntry (entries : list (string * Json)) (tk : string)
  : option (string * Json) :=
  find (fun e => String.eqb (JsString.toUpperCase (fst e))
                            (JsString.toUpperCase tk)) entries.

(** [...?.[1]]: [None] is [undefined]. *)
Definition newPriceOf (entries : list (string * Json)) (tk : string)
  : option Json :=
  option_map snd (findEntry entries tk).

(** The callback of [prevAssets.map]; [now] is its [Date.now()].  The
    inner [match] is [typeof newPrice === 'number' ? newPrice :
    asset.currentPrice]. *)
Definition mergeAsset (entries : list (string * Json)) (now : Z)
           (asset : StockAsset) : StockAsset :=
  match newPriceOf entries (ticker asset) with
  | Some newPrice =>
      if truthy newPrice then
        {| id := id asset;
           ticker := ticker asset;
           companyName := companyName asset;
           quantity := quantity asset;
           avgPrice := avgPrice asset;
           currentPrice :=
             match newPrice with
             | JNumber p => p
             | _ => currentPrice asset
             end;
           source := source asset;
           iconUrl := iconUrl asset;
           lastUpdated := now |}
      else asset
  | None => asset
  end.

(** [prevAssets.map(...)], the record at index [i] being processed at
    clock reading [clock i]. *)
Fixpoint mergeFrom (clock : nat -> Z) (entries : list (string * Json))
         (i : nat) (prevAssets : list StockAsset) : list StockAsset :=
  match prevAssets with
  | [] => []
  | asset :: rest =>
      mergeAsset entries (clock i) asset
        :: mergeFrom clock entries (S i) rest
  end.

Definition mergePrices (clock : nat -> Z) (entries : list (string * Json))
           (prevAssets : list StockAsset) : list StockAsset :=
  mergeFrom clock entries 0 prevAssets.

(** Lines 53-78 on the asset collection.  [closure] is the [assets] the
    handler closed over when it was called, [prevAssets] the collection
    the state updater receives. *)
Definition refreshAssets (clock : nat -> Z) (closure : list StockAsset)
           (marketData : option MarketData) (prevAssets : list StockAsset)
  : list StockAsset :=
  match marketData with
  | Some md =>
      match prices md with
      | Some entries =>
          if (0 <? length closure)%nat
          then mergePrices clock entries prevAssets
          else prevAssets
      | None => prevAssets
      end
  | None => prevAssets
  end.

(** Lines 55-57. *)
Definition refreshRate (marketData : option MarketData) (rate : Q) : Q :=
  match marketData with
  | Some md =>
      match usdJpy md with
      | Some r => if truthyNumber r then r else rate
      | None => rate
      end
  | None => rate
  end.

(** One complete run of the handler with no other update in between;
    [updateMarketPrices] never rejects, it resolves to [null] instead. *)
Definition handleRefreshMarketData (clock : nat -> Z)
           (marketData : option MarketData) (st : State) : State :=
  {| assets := refreshAssets clock (assets st) marketData (assets st);
     usdJpyRate := refreshRate marketData (usdJpyRate st);
     isRefreshingMarket := false |}.

(** The comparison of the lookup: equal after [toUpperCase]. *)
Definition matchesTicker (key tk : string) : Prop :=
  JsString.toUpperCase key = JsString.toUpperCase tk.

(** [(key, v)] is the first entry of the mapping, in enumeration order,
    whose key matches [tk]. *)
Definition FirstMatch (entries : list (string * Json)) (tk key : string)
           (v : Json) : Prop :=
  exists before after,
    entries = before ++ (key, v) :: after /\
    matchesTicker key tk /\
    forall e, In e before -> ~ matchesTicker (fst e) tk.

(** No key of the mapping matches [tk]. *)
Definition NoMatch (entries : list (string * Json)) (tk : string) : Prop :=
  forall e, In e entries -> ~ matchesTicker (fst e) tk.

(** The projection compared by the idempotence property. *)
Definition core (a : StockAsset) : string * Q * Q * Q :=
  (ticker a, quantity a, avgPrice a, currentPrice a).

End App.

(* ================================================================== *)
(** ** components/Dashboard.tsx: the summary projection, read in exact
       arithmetic

    The reducer with its numbers taken as rationals.  The code computes
    in binary64 ([Dashboard64] below); this reading is used for
    statements that are equalities between the same operations on the
    same values, or signs, which rounding does not change. *)

Module Dashboard.
Import Types.

Record PortfolioSummary : Type := mkSummary {
  totalValue : Q;
  totalCost : Q;
  totalGain : Q;
  gainPercentage : Q
}.

(** The callback of [assets.reduce] (lines 28-36). *)
Definition reducer (acc : PortfolioSummary) (asset : StockAsset)
  : PortfolioSummary :=
  let currentVal := quantity asset * currentPrice asset in
  let costBasis := quantity asset * avgPrice asset in
  {| totalValue := totalValue acc + currentVal;
     totalCost := totalCost acc + costBasis;
     totalGain := totalGain acc + (currentVal - costBasis);
     gainPercentage := 0 |}.

Definition initial : PortfolioSummary :=
  {| totalValue := 0; totalCost := 0; totalGain := 0; gainPercentage := 0 |}.

(** [a > b] on numbers. *)
Definition Qgtb (a b : Q) : bool := negb (Qle_bool a b).

(** Lines 28-39: the reduction, then the assignment to
    [summary.gainPercentage]. *)
Definition summary (assets : list StockAsset) : PortfolioSummary :=
  let acc := fold_left reducer assets initial in
  {| totalValue := totalValue acc;
     totalCost := totalCost acc;
     totalGain := totalGain acc;
     gainPercentage :=
       if Qgtb (totalCost acc) 0
       then (totalGain acc / totalCost acc) * 100
       else 0 |}.

(** The sum of [f] over the assets. *)
Fixpoint sumOver (f : StockAsset -> Q) (assets : list StockAsset) : Q :=
  match assets with
  | [] => 0
  | a :: rest => f a + sumOver f rest
  end.

Definition marketValue (a : StockAsset) : Q := quantity a * currentPrice a.
Definition costBasis (a : StockAsset) : Q := quantity a * avgPrice a.

(** Quantities and prices of a record are not negative. *)
Definition nonNegative (a : StockAsset) : Prop :=
  0 <= quantity a /\ 0 <= avgPrice a /\ 0 <= currentPrice a.

End Dashboard.

(* ================================================================== *)
(** ** components/Dashboard.tsx: the summary projection in binary64 *)

Module Dashboard64.
Import PrimFloat.
Local Open Scope float_scope.

(** The numbers of a [StockAsset] that the reducer reads, as the
    binary64 values they are. *)
Record Holding : Type := mkHolding {
  quantity : float;
  avgPrice : float;
  currentPrice : float
}.

Record PortfolioSummary : Type := mkSummary {
  totalValue : float;
  totalCost : float;
  totalGain : float;
  gainPercentage : float
}.

(** The callback of [assets.reduce] (lines 28-36). *)
Definition reducer (acc : PortfolioSummary) (asset : Holding)
  : PortfolioSummary :=
  let currentVal := quantity asset * currentPrice asset in
  let costBasis := quantity asset * avgPrice asset in
  {| totalValue := totalValue acc + currentVal;
     totalCost := totalCost acc + costBasis;
     totalGain := totalGain acc + (currentVal - costBasis);
     gainPercentage := 0 |}.

Definition initial : PortfolioSummary :=
  {| totalValue := 0; totalCost := 0; totalGain := 0; gainPercentage := 0 |}.

(** Lines 28-39: the reduction, then the assignment to
    [summary.gainPercentage]; [summary.totalCost > 0] is [0 < totalCost],
    false on NaN. *)
Definition summary (assets : list Holding) : PortfolioSummary :=
  let acc := fold_left reducer assets initial in
  {| totalValue := totalValue acc;
     totalCost := totalCost acc;
     totalGain := totalGain acc;
     gainPercentage :=
       if ltb 0 (totalCost acc)
       then (totalGain acc / totalCost acc) * 100
       else 0 |}.

(** The sum of [f] over the assets: the terms are added one by one, in
    list order, to a running total that starts at 0, each addition
    rounded. *)
Fixpoint sumFrom (f : Holding -> float) (total : float)
         (assets : list Holding) : float :=
  match assets with
  | [] => total
  | a :: rest => sumFrom f (total + f a) rest
  end.

Definition sumOver (f : Holding -> float) (assets : list Holding) : float :=
  sumFrom f 0 assets.

Definition marketValue (a : Holding) : float := quantity a * currentPrice a.
Definition costBasis (a : Holding) : float := quantity a * avgPrice a.

(** Quantities and prices of a record are not negative. *)
Definition nonNegative (a : Holding) : Prop :=
  leb 0 (quantity a) = true /\ leb 0 (avgPrice a) = true
  /\ leb 0 (currentPrice a) = true.

End Dashboard64.

(* ================================================================== *)
(** ** Completions: a value, or a thrown error / rejected promise *)

Module Completion.

Inductive t (A : Type) : Type :=
| Normal (a : A)
| Throw.

Arguments Normal {A} a.
Arguments Throw {A}.

End Completion.

(* ================================================================== *)
(** ** components/SidebarChat.tsx: one chat turn *)

Module SidebarChat.

Inductive Role : Type := user | model.

(** [ChatMessage]; [isThinking] is an optional property. *)
Record ChatMessage : Type := mkMessage {
  role : Role;
  text : string;
  isThinking : option bool
}.

Record State : Type := mkState {
  messages : list ChatMessage;
  input : string;
  isLoading : bool
}.

(** What the async generator [streamPortfolioChat] does when iterated: it
    yields [chunk.text] values ([None] is [undefined]) and then either
    returns or throws. *)
Record Stream : Type := mkStream {
  chunks : list (option string);
  fails : bool
}.

(** The message shown by the [catch] block. *)
Definition errorText : string :=
  "申し訳ありません。リクエストの処理中にエラーが発生しました。".

Definition placeholder : ChatMessage :=
  {| role := model; text := ""; isThinking := Some true |}.

Definition errorMessage : ChatMessage :=
  {| role := model; text := errorText; isThinking := None |}.

(** [msg.isThinking ? ... : ...] in the render: is the bubble showing the
    thinking indicator. *)
Definition showsThinking (m : ChatMessage) : bool :=
  match isThinking m with Some b => b | None => false end.

(** [fullResponse += chunk]: [undefined] is converted to a string. *)
Definition chunkText (chunk : option string) : string :=
  match chunk with Some s => s | None => "undefined" end.

(** [newArr[newArr.length - 1] = m] on a copy of the array: on an empty
    array the index is [-1], which adds no element. *)
Fixpoint setLast (l : list ChatMessage) (m : ChatMessage)
  : list ChatMessage :=
  match l with
  | [] => []
  | [_] => [m]
  | a :: r => a :: setLast r m
  end.

(** The state of a turn in flight: the local [fullResponse] and the
    component state. *)
Definition Turn : Type := (string * State)%type.

(** Line 28: the guard of [handleSend]. *)
Definition canSend (st : State) : bool :=
  negb (JsString.isEmpty (JsString.trim (input st)) || isLoading st).

(** Lines 30-52: the user message, the reset of the input, the loading
    flag and the placeholder. *)
Definition beginTurn (st : State) : Turn :=
  let userMsg := {| role := user; text := input st; isThinking := None |} in
  (EmptyString,
   {| messages := (messages st ++ [userMsg]) ++ [placeholder];
      input := EmptyString;
      isLoading := true |}).

(** Lines 55-60: the body of the [for await] loop. *)
Definition onChunk (t : Turn) (chunk : option string) : Turn :=
  let fullResponse := (fst t ++ chunkText chunk)%string in
  (fullResponse,
   {| messages :=
        setLast (messages (snd t))
                {| role := model; text := fullResponse;
                   isThinking := Some false |};
      input := input (snd t);
      isLoading := isLoading (snd t) |}).

(** The turn after the first [n] chunks of the stream have arrived. *)
Definition afterChunks (n : nat) (s : Stream) (st : State) : Turn :=
  fold_left onChunk (firstn n (chunks s)) (beginTurn st).

(** Lines 63-67: [catch] when the stream threw, then [finally]. *)
Definition endTurn (failed : bool) (t : Turn) : State :=
  {| messages :=
       if failed then messages (snd t) ++ [errorMessage]
       else messages (snd t);
     input := input (snd t);
     isLoading := false |}.

(** The fragments put together in arrival order. *)
Fixpoint joinAll (fragments : list string) : string :=
  match fragments with
  | [] => EmptyString
  | f :: rest => (f ++ joinAll rest)%string
  end.

(** A stream of text fragments that ends normally. *)
Definition textStream (fragments : list string) : Stream :=
  {| chunks := map Some fragments; fails := false |}.

(** The message [handleSend] appends for the user. *)
Definition userMessage (st : State) : ChatMessage :=
  {| role := user; text := input st; isThinking := None |}.

(** A whole run of [handleSend] against a stream. *)
Definition handleSend (s : Stream) (st : State) : State :=
  if canSend st
  then endTurn (fails s) (fold_left onChunk (chunks s) (beginTurn st))
  else st.

End SidebarChat.

(* ================================================================== *)
(** ** services/geminiService.ts *)

Module GeminiService.
Import Completion.

Record Web : Type := mkWeb {
  uri : option string;
  title : option string
}.

Record GroundingChunk : Type := mkChunk {
  web : option Web
}.

(** The parts of a [GenerateContentResponse] the service reads:
    [response.text] and
    [response.candidates?.[0]?.groundingMetadata?.groundingChunks]. *)
Record Response : Type := mkResponse {
  text : option string;
  groundingChunks : option (list GroundingChunk)
}.

Record NewsItem : Type := mkNews {
  headline : string;
  summary : string;
  url : option string;
  source : string
}.

(** [a || b] on a string that may be [undefined]. *)
Definition orElse (a : option string) (b : string) : string :=
  match a with
  | Some s => if JsString.isEmpty s then b else s
  | None => b
  end.

(** [groundingChunks[index % groundingChunks.length]]: with no chunk the
    index is [NaN] and the element [undefined]. *)
Definition chunkAt (gc : list GroundingChunk) (index : nat)
  : option GroundingChunk :=
  match gc with
  | [] => None
  | _ => nth_error gc (index mod length gc)
  end.

Definition webUri (c : option GroundingChunk) : option string :=
  match c with
  | Some c' => match web c' with Some w => uri w | None => None end
  | None => None
  end.

Definition webTitle (c : option GroundingChunk) : option string :=
  match c with
  | Some c' => match web c' with Some w => title w | None => None end
  | None => None
  end.

(** Line 239. *)
Definition rawItems (txt : string) : list string :=
  filter (fun s => (0 <? String.length s)%nat)
         (map JsString.trim (JsString.split "|||" txt)).

(** Lines 241-258: the callback of [rawItems.map]. *)
Definition toNewsItem (gc : list GroundingChunk) (raw : string) (index : nat)
  : NewsItem :=
  let parts := JsString.split "::" raw in
  let chunk := chunkAt gc index in
  {| headline := orElse (option_map JsString.trim (nth_error parts 0))
                        "関連ニュース";
     summary := orElse (option_map JsString.trim (nth_error parts 1)) raw;
     url := webUri chunk;
     source := orElse (webTitle chunk) "Google Search" |}.

Fixpoint mapFrom (gc : list GroundingChunk) (index : nat) (l : list string)
  : list NewsItem :=
  match l with
  | [] => []
  | raw :: r => toNewsItem gc raw index :: mapFrom gc (S index) r
  end.

(** [response.text || ""] *)
Definition textOf (response : Response) : string :=
  match text response with Some t => t | None => EmptyString end.

(** Lines 235-270, on the response of the model. *)
Definition parseNews (response : Response) : list NewsItem :=
  let txt := textOf response in
  let gc := match groundingChunks response with Some l => l | None => [] end in
  let newsItems := mapFrom gc 0 (rawItems txt) in
  if ((length newsItems =? 0) && (0 <? String.length txt))%nat
  then [ {| headline := "市場ニュース";
            summary := txt;
            source := "Google Search";
            url := webUri (nth_error gc 0) |} ]
  else newsItems.

(** [fetchStockNews]; [call] is the completion of
    [ai.models.generateContent], looked at only when there are tickers. *)
Definition fetchStockNews (tickers : list string) (call : Completion.t Response)
  : list NewsItem :=
  if (length tickers =? 0)%nat then []
  else match call with
       | Normal response => parseNews response
       | Throw => []
       end.

(** [Partial<StockAsset>], the fields the receipt schema asks for. *)
Record TradeFields : Type := mkFields {
  ticker : option string;
  companyName : option string;
  quantity : option Q;
  avgPrice : option Q
}.

(** [parseTradeScreenshot]: the completion of [generateContent] and
    [JSON.parse]; every error is logged and thrown again. *)
Definition parseTradeScreenshot
           (call : Completion.t Response)
           (JSON_parse : string -> Completion.t (option TradeFields))
  : Completion.t (option TradeFields) :=
  match call with
  | Normal response =>
      match text response with
      | Some t => if JsString.isEmpty t then Normal None else JSON_parse t
      | None => Normal None
      end
  | Throw => Throw
  end.

End GeminiService.

(* ================================================================== *)
(** ** components/AddAssetModal.tsx: the receipt upload *)

Module AddAssetModal.
Import Completion.

Inductive Tab : Type := manual | image.

Record State : Type := mkState {
  activeTab : Tab;
  isProcessing : bool;
  loadingStatus : string;
  ticker : string;
  qty : string;
  price : string;
  source : Types.AISource
}.

(** The picked [File]: its declared MIME type. *)
Record File : Type := mkFile {
  type : string
}.

Definition statusAnalysing : string := "Gemini Visionがレシートを解析中...".
Definition statusExtracted : string :=
  "データを抽出しました！内容を確認してください。".
Definition statusFailed : string := "画像の解析に失敗しました。".

(** Handler code: a state transformer that completes normally or throws;
    the state updates made before a throw stay. *)
Definition M (A : Type) : Type := State -> Completion.t A * State.

Definition ret {A : Type} (a : A) : M A := fun st => (Normal a, st).

Definition throw {A : Type} : M A := fun st => (Throw, st).

Definition bind {A B : Type} (m : M A) (k : A -> M B) : M B :=
  fun st =>
    match m st with
    | (Normal a, st') => k a st'
    | (Throw, st') => (Throw, st')
    end.

(** [await p] / a call with completion [c]. *)
Definition await {A : Type} (c : Completion.t A) : M A :=
  fun st => (c, st).

(** [try { body } catch (error) { handler }] *)
Definition tryCatch (body handler : M unit) : M unit :=
  fun st =>
    match body st with
    | (Normal a, st') => (Normal a, st')
    | (Throw, st') => handler st'
    end.

Notation "x <- m ;; k" := (bind m (fun x => k))
  (at level 61, m at next level, right associativity).
Notation "m ;; k" := (bind m (fun _ => k))
  (at level 61, right associativity).

Definition setIsProcessing (b : bool) : M unit :=
  fun st => (Normal tt,
             {| activeTab := activeTab st; isProcessing := b;
                loadingStatus := loadingStatus st; ticker := ticker st;
                qty := qty st; price := price st; source := source st |}).

Definition setLoadingStatus (s : string) : M unit :=
  fun st => (Normal tt,
             {| activeTab := activeTab st; isProcessing := isProcessing st;
                loadingStatus := s; ticker := ticker st;
                qty := qty st; price := price st; source := source st |}).

Definition setActiveTab (t : Tab) : M unit :=
  fun st => (Normal tt,
             {| activeTab := t; isProcessing := isProcessing st;
                loadingStatus := loadingStatus st; ticker := ticker st;
                qty := qty st; price := price st; source := source st |}).

Definition setTicker (s : string) : M unit :=
  fun st => (Normal tt,
             {| activeTab := activeTab st; isProcessing := isProcessing st;
                loadingStatus := loadingStatus st; ticker := s;
                qty := qty st; price := price st; source := source st |}).

Definition setQty (s : string) : M unit :=
  fun st => (Normal tt,
             {| activeTab := activeTab st; isProcessing := isProcessing st;
                loadingStatus := loadingStatus st; ticker := ticker st;
                qty := s; price := price st; source := source st |}).

Definition setPrice (s : string) : M unit :=
  fun st => (Normal tt,
             {| activeTab := activeTab st; isProcessing := isProcessing st;
                loadingStatus := loadingStatus st; ticker := ticker st;
                qty := qty st; price := s; source := source st |}).

(** [if (v) body], [v] optional and tested for truthiness. *)
Definition whenTruthy {A : Type} (truthyA : A -> bool) (v : option A)
           (body : A -> M unit) : M unit :=
  match v with
  | Some a => if truthyA a then body a else ret tt
  | None => ret tt
  end.

Definition truthyString (s : string) : bool := negb (JsString.isEmpty s).

Section Handler.

(** [Number.prototype.toString], a built-in. *)
Variable Number_toString : Q -> string.

(** [parseTradeScreenshot(base64Data, mimeType)] with its backend; the
    first argument is [undefined] when the data URL has no comma. *)
Variable parseTradeScreenshot :
  option string -> string -> Completion.t (option GeminiService.TradeFields).

(** Lines 42-48. *)
Definition patchForm (data : GeminiService.TradeFields) : M unit :=
  whenTruthy truthyString (GeminiService.ticker data) setTicker ;;
  whenTruthy Js.truthyNumber (GeminiService.quantity data)
             (fun q => setQty (Number_toString q)) ;;
  whenTruthy Js.truthyNumber (GeminiService.avgPrice data)
             (fun p => setPrice (Number_toString p)) ;;
  setActiveTab manual ;;
  setLoadingStatus statusExtracted.

(** Lines 34-50: the [onloadend] callback.  [result] is [reader.result],
    [null] when the read failed; calling [split] on [null] throws. *)
Definition onloadend (file : File) (result : option string) : M unit :=
  base64String <- match result with
                  | Some s => ret s
                  | None => throw
                  end ;;
  let base64Data := nth_error (JsString.split "," base64String) 1 in
  let mimeType := type file in
  data <- await (parseTradeScreenshot base64Data mimeType) ;;
  match data with
  | Some d => patchForm d
  | None => ret tt
  end ;;
  setIsProcessing false.

(** Lines 24-57: the handler itself.  [startRead] is the completion of
    [new FileReader()] and [reader.readAsDataURL(file)], the only calls
    the [try] block makes. *)
Definition handleFileChange (file : option File)
           (startRead : Completion.t unit) : M unit :=
  match file with
  | None => ret tt
  | Some _ =>
      setIsProcessing true ;;
      setLoadingStatus statusAnalysing ;;
      tryCatch (await startRead)
               (setLoadingStatus statusFailed ;; setIsProcessing false)
  end.

(** The handler, then the [loadend] event of the reader it started.  The
    promise of the callback is observed by nobody: when it rejects, the
    state stays as the callback left it. *)
Definition upload (file : option File) (startRead : Completion.t unit)
           (result : option string) (st : State) : State :=
  let st1 := snd (handleFileChange file startRead st) in
  match file, startRead with
  | Some f, Normal _ => snd (onloadend f result st1)
  | _, _ => st1
  end.

End Handler.

(** The state in which the [loadend] callback starts: the form as it was,
    marked as processing. *)
Definition started (st : State) : State :=
  {| activeTab := activeTab st; isProcessing := true;
     loadingStatus := statusAnalysing; ticker := ticker st;
     qty := qty st; price := price st; source := source st |}.

(** A printer for the numbers used in the examples: the decimal digits of
    an integral value. *)
Definition digit (n : nat) : ascii := ascii_of_nat (48 + n).

Fixpoint digitsOf (fuel n : nat) (acc : string) : string :=
  match fuel with
  | O => acc
  | S f =>
      let acc' := String (digit (n mod 10)) acc in
      if (n / 10 =? 0)%nat then acc' else digitsOf f (n / 10) acc'
  end.

Definition integralToString (x : Q) : string :=
  let n := Z.to_nat (Qnum x / Zpos (Qden x)) in
  digitsOf (S n) n EmptyString.

End AddAssetModal.

(* ================================================================== *)
(** ** Sample data *)

Module Samples.
Import Types Js.

(** A lot of [q] shares of [tk], bought at [avg], priced at [cur]. *)
Definition lot (tk : string) (q avg cur : Q) (updated : Z) : StockAsset :=
  {| id := tk; ticker := tk; companyName := tk;
     quantity := q; avgPrice := avg; currentPrice := cur;
     source := GEMINI; iconUrl := None; lastUpdated := updated |}.

Definition portfolio (l : list StockAsset) : App.State :=
  {| App.assets := l; App.usdJpyRate := 154.5;
     App.isRefreshingMarket := false |}.

Definition snapshot (entries : list (string * Json)) : App.MarketData :=
  {| App.prices := Some entries; App.usdJpy := Some 150 |}.

Definition noon : nat -> Z := fun _ => 1000%Z.

(** A chat with one earlier message and a question typed in. *)
Definition asking : SidebarChat.State :=
  {| SidebarChat.messages :=
       [ {| SidebarChat.role := SidebarChat.model;
            SidebarChat.text := "Hello";
            SidebarChat.isThinking := None |} ];
     SidebarChat.input := "How is ITUB doing?";
     SidebarChat.isLoading := false |}.

(** The form with a quantity and a price already typed in. *)
Definition typed : AddAssetModal.State :=
  {| AddAssetModal.activeTab := AddAssetModal.image;
     AddAssetModal.isProcessing := false;
     AddAssetModal.loadingStatus := EmptyString;
     AddAssetModal.ticker := EmptyString;
     AddAssetModal.qty := "5";
     AddAssetModal.price := "321";
     AddAssetModal.source := GEMINI |}.

Definition png : AddAssetModal.File := {| AddAssetModal.type := "image/png" |}.

Definition dataUrl : string := "data:image/png;base64,iVBORw0KGgo=".

(** A receipt answer with the given fields. *)
Definition receipt (data : GeminiService.TradeFields)
  : option string -> string -> Completion.t (option GeminiService.TradeFields) :=
  fun _ _ => Completion.Normal (Some data).

(** What the model answers with. *)
Definition answer (txt : string) : Completion.t GeminiService.Response :=
  Completion.Normal
    {| GeminiService.text := Some txt;
       GeminiService.groundingChunks := None |}.

Definition newline : string := String (ascii_of_nat 10) EmptyString.

(** A grounding chunk with a link and a title. *)
Definition grounded (link label : string) : GeminiService.GroundingChunk :=
  {| GeminiService.web :=
       Some {| GeminiService.uri := Some link;
               GeminiService.title := Some label |} |}.

(** A chat in which a turn is in flight. *)
Definition busy : SidebarChat.State :=
  {| SidebarChat.messages := [];
     SidebarChat.input := "And AAPL?";
     SidebarChat.isLoading := true |}.

(** [JSON.parse] on the one text the examples need: "{}" is an object
    with neither [prices] nor [usdJpy]; any other text is taken as
    malformed. *)
Definition parseEmptyObject (txt : string)
  : Completion.t (option App.MarketData) :=
  if String.eqb txt "{}"
  then Completion.Normal (Some {| App.prices := None; App.usdJpy := None |})
  else Completion.Throw.

Definition aaa : StockAsset := lot "AAA" 1 10 10 0.
Definition bbb : StockAsset := lot "BBB" 1 20 20 0.

End Samples.

(* ================================================================== *)
(** ** The specification's sentences that the code does not satisfy,
       read word for word *)

Module Stated.
Import JsString Js Types.

(** The claim read word for word: a record whose ticker matches a key of
    the mapping gets that key's price and a fresh time stamp. *)
Definition merge_replaces_every_match : Prop :=
  forall clock md entries st i a key p,
    App.prices md = Some entries ->
    nth_error (App.assets st) i = Some a ->
    In (key, JNumber p) entries ->
    App.matchesTicker key (ticker a) ->
    exists a',
      nth_error (App.assets (App.handleRefreshMarketData clock (Some md) st)) i
        = Some a' /\
      currentPrice a' = p /\ lastUpdated a' = clock i.

(** The zero-price claim read word for word: whenever the mapping gives 0
    to some key that matches the ticker, the record is unchanged. *)
Definition zero_price_on_any_matching_key : Prop :=
  forall clock md entries st i a key,
    App.prices md = Some entries ->
    nth_error (App.assets st) i = Some a ->
    In (key, JNumber 0) entries ->
    App.matchesTicker key (ticker a) ->
    nth_error (App.assets (App.handleRefreshMarketData clock (Some md) st)) i
      = Some a.

(** The flag claim read word for word: once the first fragment has
    arrived, the assistant message still shows the thinking state. *)
Definition thinking_after_first_fragment : Prop :=
  forall st fragments,
    SidebarChat.canSend st = true ->
    fragments <> [] ->
    exists history m,
      SidebarChat.messages
        (snd (SidebarChat.afterChunks 1 (SidebarChat.textStream fragments) st))
      = history ++ [m] /\
      SidebarChat.showsThinking m = true.

(** The patch claim read word for word: every field present in the answer
    is written to the form, every absent one is left alone. *)
Definition receipt_patches_present_fields : Prop :=
  forall Number_toString file url data st,
    let st' := AddAssetModal.upload Number_toString (Samples.receipt data)
                 (Some file) (Completion.Normal tt) (Some url) st in
    (forall t, GeminiService.ticker data = Some t ->
               AddAssetModal.ticker st' = t)
    /\ (forall q, GeminiService.quantity data = Some q ->
                  AddAssetModal.qty st' = Number_toString q)
    /\ (forall p, GeminiService.avgPrice data = Some p ->
                  AddAssetModal.price st' = Number_toString p)
    /\ (GeminiService.ticker data = None ->
        AddAssetModal.ticker st' = AddAssetModal.ticker st)
    /\ (GeminiService.quantity data = None ->
        AddAssetModal.qty st' = AddAssetModal.qty st)
    /\ (GeminiService.avgPrice data = None ->
        AddAssetModal.price st' = AddAssetModal.price st).

(** The fallback claim read word for word: a non-empty text without
    delimiters comes back as one item whose summary is that text. *)
Definition plain_text_summary_is_raw_text : Prop :=
  forall tickers txt gc,
    tickers <> [] ->
    txt <> EmptyString ->
    includes "|||" txt = false ->
    includes "::" txt = false ->
    exists item,
      GeminiService.fetchStockNews tickers
        (Completion.Normal {| GeminiService.text := Some txt;
                              GeminiService.groundingChunks := gc |})
      = [item]
      /\ GeminiService.summary item = txt.

(** The bound read word for word. *)
Definition news_at_most_ten : Prop :=
  forall tickers call,
    (length (GeminiService.fetchStockNews tickers call) <= 10)%nat.

(** The gain sentence read word for word: for assets with non-negative
    quantities and prices, the total gain of the summary is its total
    value minus its total cost. *)
Definition gain_is_value_minus_cost : Prop :=
  forall assets,
    Forall Dashboard64.nonNegative assets ->
    Dashboard64.totalGain (Dashboard64.summary assets) =
    PrimFloat.sub (Dashboard64.totalValue (Dashboard64.summary assets))
                  (Dashboard64.totalCost (Dashboard64.summary assets)).

End Stated.

(* ================================================================== *)
(** ** App.tsx: adding an asset *)

Module Portfolio.
Import Types.

(** Lines 42-44: [setAssets(prev => [...prev, asset])]. *)
Definition handleAddAsset (asset : StockAsset) (st : App.State) : App.State :=
  {| App.assets := App.assets st ++ [asset];
     App.usdJpyRate := App.usdJpyRate st;
     App.isRefreshingMarket := App.isRefreshingMarket st |}.

(** The fields of a record that the refresh copies from the old record. *)
Definition identity (a : StockAsset)
  : string * string * string * Q * Q * AISource * option string :=
  (id a, ticker a, companyName a, quantity a, avgPrice a, source a, iconUrl a).

End Portfolio.

(* ================================================================== *)
(** ** services/geminiService.ts: market prices and icons *)

Module MarketFeed.
Import Completion.

(** [s.replace(/pat/g, '')] for a pattern of literal characters: the
    leftmost occurrences, one after the other, are left out.  [skip]
    counts the characters of a matched occurrence still to be dropped. *)
Fixpoint removeFrom (pat : string) (skip : nat) (s : string) : string :=
  match s with
  | EmptyString => EmptyString
  | String c r =>
      match skip with
      | S k => removeFrom pat k r
      | O =>
          if JsString.startsWith pat s
          then removeFrom pat (String.length pat - 1) r
          else String c (removeFrom pat 0 r)
      end
  end.

Definition removeAll (pat s : string) : string := removeFrom pat 0 s.

Definition fence : string := "```".
Definition fenceJson : string := "```json".

(** Line 321:
    [text.replace(/```json/g, '').replace(/```/g, '').trim()]. *)
Definition cleanText (txt : string) : string :=
  JsString.trim (removeAll fence (removeAll fenceJson txt)).

(** Lines 281-336 after the prompt is built: [call] is the completion of
    [generateContent], [JSON_parse] is [JSON.parse] at the result type.
    [None] is [null]. *)
Definition updateMarketPrices
           (call : Completion.t GeminiService.Response)
           (JSON_parse : string -> Completion.t (option App.MarketData))
  : option App.MarketData :=
  match call with
  | Normal response =>
      let txt := cleanText (GeminiService.textOf response) in
      if JsString.isEmpty txt then None
      else match JSON_parse txt with
           | Normal v => v
           | Throw => None
           end
  | Throw => None
  end.

(** [part.inlineData] of the first part of the first candidate. *)
Record InlineData : Type := mkInline {
  data : option string
}.

Record Part : Type := mkPart {
  inlineData : option InlineData
}.

(** A value put into a template literal. *)
Definition interpolate (v : option string) : string :=
  match v with Some x => x | None => "undefined" end.

(** Lines 134-162: [generateStockIcon]; [call] completes with
    [response.candidates?.[0]?.content?.parts?.[0]]. *)
Definition generateStockIcon (call : Completion.t (option Part))
  : option string :=
  match call with
  | Normal (Some part) =>
      match inlineData part with
      | Some inline =>
          Some ("data:image/png;base64," ++ interpolate (data inline))%string
      | None => None
      end
  | Normal None => None
  | Throw => None
  end.

End MarketFeed.

(* ================================================================== *)
(** ** The calendar arithmetic of [Date] used by the chart *)

Module JsDate.
Local Open Scope Z_scope.

(** The local calendar date a [Date] object stands for: the year, the
    month from 0 (January) to 11 and the day of the month from 1. *)
Record t : Type := mkDate {
  year : Z;
  month : Z;
  day : Z
}.

Definition isLeapYear (y : Z) : bool :=
  ((y mod 4 =? 0) && negb (y mod 100 =? 0)) || (y mod 400 =? 0).

Definition daysInMonth (y m : Z) : Z :=
  if m =? 1 then (if isLeapYear y then 29 else 28)
  else if (m =? 3) || (m =? 5) || (m =? 8) || (m =? 10) then 30
  else 31.

(** [date.setMonth(m)]: a month outside 0..11 is carried into the year,
    and a day of the month that the new month does not have runs over
    into the month after it. *)
Definition setMonth (d : t) (m : Z) : t :=
  let y := year d + m / 12 in
  let mn := m mod 12 in
  if day d <=? daysInMonth y mn
  then {| year := y; month := mn; day := day d |}
  else {| year := y + (mn + 1) / 12;
          month := (mn + 1) mod 12;
          day := day d - daysInMonth y mn |}.

(** [date.getMonth()] *)
Definition getMonth (d : t) : Z := month d.

(** The decimal notation of a number from 0 to 99. *)
Definition decimal (n : Z) : string :=
  let k := Z.to_nat n in
  let digit := fun j => ascii_of_nat (48 + j) in
  if (k <? 10)%nat then String (digit k) EmptyString
  else String (digit (k / 10)%nat) (String (digit (k mod 10)%nat) EmptyString).

End JsDate.

(* ================================================================== *)
(** ** components/Dashboard.tsx: rows, chart and news panel *)

Module DashboardView.
Import Types.

Record PortfolioHistoryItem : Type := mkPoint {
  date : string;
  value : Q
}.

(** Lines 50-52: the label of iteration [i], for the date [d] that
    [new Date()] gave: [d.setMonth(d.getMonth() - i)], then
    [d.getMonth() + 1] in front of the month sign. *)
Definition monthLabel (m : Z) : string :=
  (JsDate.decimal (m + 1) ++ "月")%string.

Definition chartLabel (d : JsDate.t) (i : nat) : string :=
  monthLabel
    (JsDate.getMonth (JsDate.setMonth d (JsDate.getMonth d - Z.of_nat i))).

(** Lines 49-61: the loop from [i] on, [n] iterations left.  [random i] is
    the reading of [Math.random()] and [now i] the date [new Date()]
    gives in iteration [i]; [data.unshift] puts the point in front. *)
Fixpoint historyLoop (random : nat -> Q) (now : nat -> JsDate.t)
         (n i : nat) (currentValue : Q) (data : list PortfolioHistoryItem)
  : list PortfolioHistoryItem :=
  match n with
  | O => data
  | S n' =>
      let data' :=
        {| date := chartLabel (now i) i; value := currentValue |} :: data in
      let change := random i * 0.15 - 0.05 in
      historyLoop random now n' (S i) (currentValue / (1 + change)) data'
  end.

(** Lines 42-63. *)
Definition historyData (random : nat -> Q) (now : nat -> JsDate.t)
           (summary : Dashboard.PortfolioSummary)
  : list PortfolioHistoryItem :=
  if Qeq_bool (Dashboard.totalValue summary) 0 then []
  else historyLoop random now 6 0 (Dashboard.totalValue summary) [].

(** The news state of the component. *)
Record NewsState : Type := mkNewsState {
  news : list GeminiService.NewsItem;
  loadingNews : bool
}.

(** Lines 66-74: [getNews], run to its end. *)
Definition getNews (assets : list StockAsset)
           (call : Completion.t GeminiService.Response) (st : NewsState)
  : NewsState :=
  if (0 <? length assets)%nat
  then {| news := GeminiService.fetchStockNews (map ticker assets) call;
          loadingNews := false |}
  else st.

(** Lines 276, 282 and 301: the conditions of the three blocks of the
    news section. *)
Definition showsSpinner (st : NewsState) : bool := loadingNews st.

Definition showsList (st : NewsState) : bool :=
  negb (loadingNews st) && (0 <? length (news st))%nat.

Definition showsNoNews (assets : list StockAsset) (st : NewsState) : bool :=
  negb (loadingNews st) && (length (news st) =? 0)%nat
  && (0 <? length assets)%nat.

End DashboardView.

(* ================================================================== *)
(** ** components/AddAssetModal.tsx: the form *)

Module AssetForm.
Import Types.

(** What [handleSubmit] hands to [onAdd] (lines 66-78).  [parseFloat] is
    the built-in on the strings a number field holds, [random] the reading
    of [Math.random()], [now1] and [now2] the two readings of [Date.now()],
    [Z_toString] the decimal notation of the first, and [iconUrl] what
    [generateStockIcon] resolved to. *)
Definition newAsset (parseFloat : string -> Q) (Z_toString : Z -> string)
           (random : Q) (now1 now2 : Z) (icon : option string)
           (st : AddAssetModal.State) : StockAsset :=
  {| id := Z_toString now1;
     ticker := JsString.toUpperCase (AddAssetModal.ticker st);
     companyName := JsString.toUpperCase (AddAssetModal.ticker st);
     quantity := parseFloat (AddAssetModal.qty st);
     avgPrice := parseFloat (AddAssetModal.price st);
     currentPrice :=
       parseFloat (AddAssetModal.price st) * (1 + (random * 0.1 - 0.05));
     source := AddAssetModal.source st;
     iconUrl := icon;
     lastUpdated := now2 |}.

(** Lines 59-87: the asset goes to [onAdd], which is [handleAddAsset] of
    the application; [generateStockIcon] never rejects, so the [try] block
    runs to its end and [finally] clears the processing flag. *)
Definition handleSubmit (parseFloat : string -> Q) (Z_toString : Z -> string)
           (random : Q) (now1 now2 : Z)
           (iconCall : Completion.t (option MarketFeed.Part))
           (form : AddAssetModal.State) (app : App.State)
  : AddAssetModal.State * App.State :=
  let icon := MarketFeed.generateStockIcon iconCall in
  let asset := newAsset parseFloat Z_toString random now1 now2 icon form in
  ({| AddAssetModal.activeTab := AddAssetModal.activeTab form;
      AddAssetModal.isProcessing := false;
      AddAssetModal.loadingStatus := "Nano Bananaでアイコンを生成中...";
      AddAssetModal.ticker := AddAssetModal.ticker form;
      AddAssetModal.qty := AddAssetModal.qty form;
      AddAssetModal.price := AddAssetModal.price form;
      AddAssetModal.source := AddAssetModal.source form |},
   Portfolio.handleAddAsset asset app).

End AssetForm.

(* ================================================================== *)
(** ** components/SidebarChat.tsx: any stream *)

Module ChatStream.

(** What [fullResponse] holds after the chunks. *)
Fixpoint joinChunks (chunks : list (option string)) : string :=
  match chunks with
  | [] => EmptyString
  | c :: rest => (SidebarChat.chunkText c ++ joinChunks rest)%string
  end.

(** The reply bubble once a chunk has arrived. *)
Definition reply (txt : string) : SidebarChat.ChatMessage :=
  {| SidebarChat.role := SidebarChat.model;
     SidebarChat.text := txt;
     SidebarChat.isThinking := Some false |}.




End ChatStream.

(* ================================================================== *)
(** ** The text format the news prompt asks for *)

Module NewsWire.

(** Does the character occur in the string. *)
Fixpoint hasChar (c : ascii) (s : string) : bool :=
  match s with
  | EmptyString => false
  | String d r => Ascii.eqb d c || hasChar c r
  end.

(** The string is white space only. *)
Fixpoint allSpace (s : string) : bool :=
  match s with
  | EmptyString => true
  | String d r => JsString.isSpace d && allSpace r
  end.

(** The segments of the answer between "|||" separators that hold
    something other than white space. *)
Definition nonBlankSegments (txt : string) : list string :=
  filter (fun segment => negb (allSpace segment)) (JsString.split "|||" txt).

(** A headline or summary as the model may write it: the text, with white
    space before and after. *)
Record Padded : Type := mkPadded {
  lead : string;
  content : string;
  trail : string
}.

Definition render (p : Padded) : string :=
  (lead p ++ content p ++ trail p)%string.

(** The text is not empty, does not start or end with white space and
    holds none of the characters of the two delimiters. *)
Definition plain (x : string) : Prop :=
  x <> EmptyString /\
  JsString.trimStart x = x /\ JsString.trimEnd x = x /\
  hasChar "|" x = false /\ hasChar ":" x = false.

Definition wellPadded (p : Padded) : Prop :=
  allSpace (lead p) = true /\ allSpace (trail p) = true /\ plain (content p).

(** "HEADLINE :: SUMMARY" *)
Definition storyText (st : Padded * Padded) : string :=
  (render (fst st) ++ "::" ++ render (snd st))%string.

(** The stories, separated by "|||". *)
Definition wire (stories : list (Padded * Padded)) : string :=
  JsString.join "|||" (map storyText stories).

(** A story as it is after the trimming of line 239. *)
Definition storyBody (st : Padded * Padded) : string :=
  ((content (fst st) ++ trail (fst st)) ++ "::"
     ++ (lead (snd st) ++ content (snd st)))%string.

End NewsWire.

Import JsString Js Types.

(* ================================================================== *)
(** * Properties *)

(** ** Strings *)

Example toUpperCase_mixed : toUpperCase "aBc1" = "ABC1".
Proof. reflexivity. Qed.

Example split_stories : split "|||" "a|||b||c|||" = ["a"; "b||c"; ""].
Proof. reflexivity. Qed.

Example split_empty : split "::" "" = [""].
Proof. reflexivity. Qed.

Example split_leftmost : split "|||" "||||x" = [""; "|x"].
Proof. reflexivity. Qed.

Example trim_both_ends : trim (String " " (String "a" (String " " (String "b"
                           (String (ascii_of_nat 10) EmptyString))))) = "a b".
Proof. reflexivity. Qed.

(** ** Market refresh *)

Section Refresh.
Import App.

Variable clock : nat -> Z.

Lemma findEntry_first entries tk key v :
  FirstMatch entries tk key v -> findEntry entries tk = Some (key, v).
Proof.
  intros (before & after & -> & Hk & Hb).
  unfold findEntry.
  induction before as [|e before IH]; simpl.
  - unfold matchesTicker in Hk. rewrite Hk, String.eqb_refl. reflexivity.
  - destruct (String.eqb_spec (toUpperCase (fst e)) (toUpperCase tk)) as [E|E].
    + exfalso. apply (Hb e); [now left | exact E].
    + apply IH. intros e' He'. apply Hb. now right.
Qed.

Lemma findEntry_none entries tk :
  NoMatch entries tk -> findEntry entries tk = None.
Proof.
  unfold findEntry, NoMatch, matchesTicker.
  induction entries as [|e entries IH]; simpl; intros H; [reflexivity|].
  destruct (String.eqb_spec (toUpperCase (fst e)) (toUpperCase tk)) as [E|E].
  - exfalso. apply (H e); [now left | exact E].
  - apply IH. intros e' He'. apply H. now right.
Qed.

Lemma findEntry_same_ticker entries tk tk' :
  toUpperCase tk = toUpperCase tk' ->
  findEntry entries tk = findEntry entries tk'.
Proof. unfold findEntry. intros ->. reflexivity. Qed.

Lemma nth_error_mergeFrom entries :
  forall l j i,
    nth_error (mergeFrom clock entries j l) i =
    option_map (mergeAsset entries (clock (j + i))) (nth_error l i).
Proof.
  induction l as [|a l IH]; intros j i.
  - destruct i; reflexivity.
  - destruct i as [|i]; simpl.
    + now rewrite Nat.add_0_r.
    + rewrite IH. now rewrite Nat.add_succ_r.
Qed.

Lemma refreshAssets_present md entries l :
  prices md = Some entries ->
  refreshAssets clock l (Some md) l = mergePrices clock entries l.
Proof.
  intros H. unfold refreshAssets. rewrite H.
  destruct l; reflexivity.
Qed.

Lemma assets_handleRefresh marketData st :
  assets (handleRefreshMarketData clock marketData st) =
  refreshAssets clock (assets st) marketData (assets st).
Proof. reflexivity. Qed.

Lemma nth_error_refresh md entries st i a :
  prices md = Some entries ->
  nth_error (assets st) i = Some a ->
  nth_error (assets (handleRefreshMarketData clock (Some md) st)) i =
  Some (mergeAsset entries (clock i) a).
Proof.
  intros Hp Ha. rewrite assets_handleRefresh.
  rewrite (refreshAssets_present md entries (assets st) Hp).
  unfold mergePrices. rewrite nth_error_mergeFrom, Ha. reflexivity.
Qed.

Lemma truthyNumber_nonzero p : ~ p == 0 -> truthyNumber p = true.
Proof.
  intros H. unfold truthyNumber.
  destruct (Qeq_bool p 0) eqn:E; [|reflexivity].
  apply Qeq_bool_iff in E. contradiction.
Qed.

Lemma truthyNumber_zero p : p == 0 -> truthyNumber p = false.
Proof.
  intros H. unfold truthyNumber.
  apply Qeq_bool_iff in H. now rewrite H.
Qed.

Lemma mergeAsset_priced entries now a key p :
  findEntry entries (ticker a) = Some (key, JNumber p) ->
  ~ p == 0 ->
  mergeAsset entries now a =
  {| id := id a; ticker := ticker a; companyName := companyName a;
     quantity := quantity a; avgPrice := avgPrice a; currentPrice := p;
     source := source a; iconUrl := iconUrl a; lastUpdated := now |}.
Proof.
  intros Hf Hp. unfold mergeAsset, newPriceOf. rewrite Hf. simpl.
  now rewrite (truthyNumber_nonzero p Hp).
Qed.

Lemma mergeAsset_unmatched entries now a :
  findEntry entries (ticker a) = None -> mergeAsset entries now a = a.
Proof.
  intros Hf. unfold mergeAsset, newPriceOf. now rewrite Hf.
Qed.

Lemma mergeAsset_zero entries now a key z :
  findEntry entries (ticker a) = Some (key, JNumber z) ->
  z == 0 ->
  mergeAsset entries now a = a.
Proof.
  intros Hf Hz. unfold mergeAsset, newPriceOf. rewrite Hf. simpl.
  now rewrite (truthyNumber_zero z Hz).
Qed.



Lemma mergeFrom_length entries :
  forall l j, length (mergeFrom clock entries j l) = length l.
Proof. induction l; intros; simpl; auto. Qed.

End Refresh.

(** The mapping [{"AAA": 0}] against one lot of AAA priced at 10. *)
Example refresh_zero_price :
  App.assets
    (App.handleRefreshMarketData Samples.noon
       (Some (Samples.snapshot [("AAA", JNumber 0)]))
       (Samples.portfolio [Samples.aaa]))
  = [Samples.aaa].
Proof. reflexivity. Qed.

(** C1, as stated, fails: the mapping [{"AAA": 0}] leaves the lot of AAA
    at its old price 10, with its old time stamp. *)
Lemma merge_replaces_every_match_fails : ~ Stated.merge_replaces_every_match.
Proof.
  intros H.
  destruct (H Samples.noon (Samples.snapshot [("AAA", JNumber 0)])
              [("AAA", JNumber 0)]
              (Samples.portfolio [Samples.aaa]) 0%nat Samples.aaa "AAA" 0)
    as (a' & Ha' & Hp & _).
  - reflexivity.
  - reflexivity.
  - now left.
  - reflexivity.
  - vm_compute in Ha'. injection Ha' as <-. discriminate Hp.
Qed.

(** C1 (amended).  After a refresh whose snapshot has a price mapping,
    the record at every index
    - whose first matching key (case-insensitive comparison, enumeration
      order of the mapping) carries a non-zero number [p] is the old
      record with [currentPrice] set to [p] and [lastUpdated] set to the
      clock reading, nothing else changed;
    - is the old record, unchanged in all fields, when no key matches;
    and every other record with the same ticker up to case (another lot)
    receives the same price [p]. *)
Theorem refresh_merge_postcondition :
  forall clock md entries st i a,
    App.prices md = Some entries ->
    nth_error (App.assets st) i = Some a ->
    let st' := App.handleRefreshMarketData clock (Some md) st in
    (forall key p,
        App.FirstMatch entries (ticker a) key (JNumber p) ->
        ~ p == 0 ->
        nth_error (App.assets st') i =
        Some {| id := id a; ticker := ticker a;
                companyName := companyName a; quantity := quantity a;
                avgPrice := avgPrice a; currentPrice := p;
                source := source a; iconUrl := iconUrl a;
                lastUpdated := clock i |}
        /\ forall j b,
            nth_error (App.assets st) j = Some b ->
            App.matchesTicker (ticker b) (ticker a) ->
            exists b',
              nth_error (App.assets st') j = Some b' /\
              currentPrice b' = p /\ lastUpdated b' = clock j)
    /\ (App.NoMatch entries (ticker a) ->
        nth_error (App.assets st') i = Some a).
Proof.
  intros clock md entries st i a Hp Ha st'. split.
  - intros key p Hm Hnz.
    pose proof (findEntry_first entries (ticker a) key (JNumber p) Hm) as Hf.
    split.
    + unfold st'. rewrite (nth_error_refresh clock md entries st i a Hp Ha).
      now rewrite (mergeAsset_priced entries (clock i) a key p Hf Hnz).
    + intros j b Hb Hsame.
      unfold st'. rewrite (nth_error_refresh clock md entries st j b Hp Hb).
      rewrite (findEntry_same_ticker entries (ticker a) (ticker b)) in Hf
        by (symmetry; exact Hsame).
      rewrite (mergeAsset_priced entries (clock j) b key p Hf Hnz).
      eexists. split; [reflexivity|]. split; reflexivity.
  - intros Hn. unfold st'.
    rewrite (nth_error_refresh clock md entries st i a Hp Ha).
    now rewrite (mergeAsset_unmatched entries (clock i) a
                   (findEntry_none entries (ticker a) Hn)).
Qed.

(** C1 on the selective merge of the specification: AAA goes from 10 to 15
    through the key "aaa", BBB stays at 20. *)
Lemma refresh_merge_postcondition_witness :
  let st := Samples.portfolio [Samples.aaa; Samples.bbb] in
  let st' := App.handleRefreshMarketData Samples.noon
               (Some (Samples.snapshot [("aaa", JNumber 15)])) st in
  nth_error (App.assets st') 0 = Some (Samples.lot "AAA" 1 10 15 1000) /\
  nth_error (App.assets st') 1 = Some Samples.bbb.
Proof.
  split.
  - apply (proj1 (refresh_merge_postcondition Samples.noon
                    (Samples.snapshot [("aaa", JNumber 15)])
                    [("aaa", JNumber 15)]
                    (Samples.portfolio [Samples.aaa; Samples.bbb])
                    0%nat Samples.aaa eq_refl eq_refl) "aaa" 15).
    + exists [], []. split; [reflexivity|]. split; [reflexivity|].
      intros e [].
    + discriminate.
  - apply (proj2 (refresh_merge_postcondition Samples.noon
                    (Samples.snapshot [("aaa", JNumber 15)])
                    [("aaa", JNumber 15)]
                    (Samples.portfolio [Samples.aaa; Samples.bbb])
                    1%nat Samples.bbb eq_refl eq_refl)).
    intros e [<-|[]]. discriminate.
Defined.




(** The same claim on an example: two lots of AAA and one of BBB, prices
    for both, refreshed at two different times. *)
Example refresh_twice_example :
  let st := Samples.portfolio
              [Samples.lot "AAA" 1 10 10 0; Samples.lot "aaa" 3 11 10 0;
               Samples.lot "BBB" 1 20 20 0] in
  let md := Some (Samples.snapshot [("AAA", JNumber 15); ("bbb", JNumber 0)]) in
  map App.core (App.assets
    (App.handleRefreshMarketData (fun _ => 2000%Z) md
       (App.handleRefreshMarketData Samples.noon md st))) =
  [("AAA", 1, 10, 15); ("aaa", 3, 11, 15); ("BBB", 1, 20, 20)].
Proof. reflexivity. Qed.

(** The mapping [{"aaa": 5, "AAA": 0}] against one lot of AAA. *)
Example refresh_case_variants :
  App.assets
    (App.handleRefreshMarketData Samples.noon
       (Some (Samples.snapshot [("aaa", JNumber 5); ("AAA", JNumber 0)]))
       (Samples.portfolio [Samples.aaa]))
  = [Samples.lot "AAA" 1 10 5 1000].
Proof. reflexivity. Qed.

(** C10, as stated, fails: in [{"aaa": 5, "AAA": 0}] the key "AAA" has the
    value 0 and matches the ticker AAA, but the lookup stops at "aaa" and
    the lot is re-priced at 5. *)
Lemma zero_price_on_any_matching_key_fails :
  ~ Stated.zero_price_on_any_matching_key.
Proof.
  intros H.
  specialize (H Samples.noon
                (Samples.snapshot [("aaa", JNumber 5); ("AAA", JNumber 0)])
                [("aaa", JNumber 5); ("AAA", JNumber 0)]
                (Samples.portfolio [Samples.aaa]) 0%nat Samples.aaa "AAA"
                eq_refl eq_refl (or_intror (or_introl eq_refl)) eq_refl).
  vm_compute in H. discriminate H.
Qed.

(** C10 (amended).  When the first key of the mapping that matches the
    record's ticker (case-insensitive comparison, enumeration order)
    carries the price 0, the refresh leaves the record unchanged in all
    fields: [currentPrice] and [lastUpdated] keep their values. *)
Theorem zero_price_leaves_record :
  forall clock md entries st i a key z,
    App.prices md = Some entries ->
    nth_error (App.assets st) i = Some a ->
    App.FirstMatch entries (ticker a) key (JNumber z) ->
    z == 0 ->
    nth_error (App.assets (App.handleRefreshMarketData clock (Some md) st)) i
      = Some a.
Proof.
  intros clock md entries st i a key z Hp Ha Hm Hz.
  rewrite (nth_error_refresh clock md entries st i a Hp Ha).
  f_equal.
  apply (mergeAsset_zero entries (clock i) a key z); [|exact Hz].
  now apply findEntry_first.
Qed.

(** C10 on the mapping [{"BBB": 7, "aaa": 0}]: the lot of AAA stays. *)
Lemma zero_price_leaves_record_witness :
  nth_error
    (App.assets
       (App.handleRefreshMarketData Samples.noon
          (Some (Samples.snapshot [("BBB", JNumber 7); ("aaa", JNumber 0)]))
          (Samples.portfolio [Samples.bbb; Samples.aaa]))) 1
  = Some Samples.aaa.
Proof.
  apply (zero_price_leaves_record Samples.noon
           (Samples.snapshot [("BBB", JNumber 7); ("aaa", JNumber 0)])
           [("BBB", JNumber 7); ("aaa", JNumber 0)]
           (Samples.portfolio [Samples.bbb; Samples.aaa])
           1%nat Samples.aaa "aaa" 0 eq_refl eq_refl).
  - exists [("BBB", JNumber 7)], []. split; [reflexivity|].
    split; [reflexivity|].
    intros e [<-|[]]. discriminate.
  - reflexivity.
Defined.

(** ** Summary projection *)

Section Summary.
Import Dashboard.


Lemma fold_reducer_totalCost :
  forall assets acc,
    totalCost (fold_left reducer assets acc) ==
    totalCost acc + sumOver costBasis assets.
Proof.
  induction assets as [|a rest IH]; intros acc; simpl.
  - ring.
  - rewrite IH. unfold costBasis. simpl. ring.
Qed.


Lemma sumOver_costBasis_nonneg :
  forall assets, Forall nonNegative assets -> 0 <= sumOver costBasis assets.
Proof.
  induction 1 as [|a rest (Hq & Ha & _) _ IH]; simpl.
  - apply Qle_refl.
  - rewrite <- (Qplus_0_l 0). apply Qplus_le_compat; [|exact IH].
    unfold costBasis. now apply Qmult_le_0_compat.
Qed.


End Summary.

Section Summary64.
Import PrimFloat.
Local Open Scope float_scope.
#[local] Set Warnings "-inexact-float".

Lemma fold_reducer64_totalValue :
  forall assets acc,
    Dashboard64.totalValue (fold_left Dashboard64.reducer assets acc) =
    Dashboard64.sumFrom Dashboard64.marketValue
      (Dashboard64.totalValue acc) assets.
Proof.
  induction assets as [|a rest IH]; intros acc; [reflexivity|].
  cbn [fold_left Dashboard64.sumFrom]. now rewrite IH.
Qed.

Lemma fold_reducer64_totalCost :
  forall assets acc,
    Dashboard64.totalCost (fold_left Dashboard64.reducer assets acc) =
    Dashboard64.sumFrom Dashboard64.costBasis
      (Dashboard64.totalCost acc) assets.
Proof.
  induction assets as [|a rest IH]; intros acc; [reflexivity|].
  cbn [fold_left Dashboard64.sumFrom]. now rewrite IH.
Qed.

Lemma fold_reducer64_totalGain :
  forall assets acc,
    Dashboard64.totalGain (fold_left Dashboard64.reducer assets acc) =
    Dashboard64.sumFrom
      (fun a => Dashboard64.marketValue a - Dashboard64.costBasis a)
      (Dashboard64.totalGain acc) assets.
Proof.
  induction assets as [|a rest IH]; intros acc; [reflexivity|].
  cbn [fold_left Dashboard64.sumFrom]. now rewrite IH.
Qed.

(** The assets (qty 1, avg 0.1, cur 0.2) and (qty 1, avg 0.4, cur 0.3):
    value and cost are both 0.5, the gain is a rounding residue. *)
Example summary_rounding_residue :
  let s := Dashboard64.summary
             [ {| Dashboard64.quantity := 1; Dashboard64.avgPrice := 0.1;
                  Dashboard64.currentPrice := 0.2 |};
               {| Dashboard64.quantity := 1; Dashboard64.avgPrice := 0.4;
                  Dashboard64.currentPrice := 0.3 |} ] in
  Dashboard64.totalValue s = 0.5 /\ Dashboard64.totalCost s = 0.5
  /\ Dashboard64.totalGain s = -0x1p-55
  /\ Dashboard64.totalValue s - Dashboard64.totalCost s = 0.
Proof. repeat split. Qed.

(** C3, as stated, fails: for the two assets above the total gain is
    -2.8e-17 while total value minus total cost is 0. *)
Lemma gain_is_value_minus_cost_fails : ~ Stated.gain_is_value_minus_cost.
Proof.
  intros H.
  specialize (H [ {| Dashboard64.quantity := 1; Dashboard64.avgPrice := 0.1;
                     Dashboard64.currentPrice := 0.2 |};
                  {| Dashboard64.quantity := 1; Dashboard64.avgPrice := 0.4;
                     Dashboard64.currentPrice := 0.3 |} ]).
  assert (Hnn : Forall Dashboard64.nonNegative
                  [ {| Dashboard64.quantity := 1; Dashboard64.avgPrice := 0.1;
                       Dashboard64.currentPrice := 0.2 |};
                    {| Dashboard64.quantity := 1; Dashboard64.avgPrice := 0.4;
                       Dashboard64.currentPrice := 0.3 |} ])
    by (repeat constructor).
  specialize (H Hnn). vm_compute in H.
  apply (f_equal (fun x => PrimFloat.eqb x 0)) in H.
  vm_compute in H. discriminate H.
Qed.

(** C3 (amended).  In binary64, for every asset list, the summary has
    totalValue = the sum of quantity * currentPrice, totalCost = the sum
    of quantity * avgPrice and totalGain = the sum of the differences
    quantity * currentPrice - quantity * avgPrice, each added up in list
    order from 0; gainPercentage = totalGain / totalCost * 100 when
    totalCost > 0 and 0 when it is not, in particular when totalCost is
    0; the single asset (qty 2, avg 10, cur 15) gives 30, 20, 10 and
    50. *)
Theorem summary_projection :
  (forall assets,
      let s := Dashboard64.summary assets in
      Dashboard64.totalValue s =
        Dashboard64.sumOver Dashboard64.marketValue assets
      /\ Dashboard64.totalCost s =
        Dashboard64.sumOver Dashboard64.costBasis assets
      /\ Dashboard64.totalGain s =
        Dashboard64.sumOver
          (fun a => Dashboard64.quantity a * Dashboard64.currentPrice a
                    - Dashboard64.quantity a * Dashboard64.avgPrice a)
          assets
      /\ (ltb 0 (Dashboard64.totalCost s) = true ->
          Dashboard64.gainPercentage s =
          Dashboard64.totalGain s / Dashboard64.totalCost s * 100)
      /\ (ltb 0 (Dashboard64.totalCost s) = false ->
          Dashboard64.gainPercentage s = 0)
      /\ (Dashboard64.totalCost s = 0 -> Dashboard64.gainPercentage s = 0))
  /\ (let s := Dashboard64.summary
                 [ {| Dashboard64.quantity := 2; Dashboard64.avgPrice := 10;
                      Dashboard64.currentPrice := 15 |} ] in
      Dashboard64.totalValue s = 30 /\ Dashboard64.totalCost s = 20 /\
      Dashboard64.totalGain s = 10 /\ Dashboard64.gainPercentage s = 50).
Proof.
  split; [|repeat split].
  intros assets s. unfold s, Dashboard64.summary, Dashboard64.sumOver.
  cbn [Dashboard64.totalValue Dashboard64.totalCost Dashboard64.totalGain
       Dashboard64.gainPercentage].
  rewrite fold_reducer64_totalValue, fold_reducer64_totalCost,
    fold_reducer64_totalGain.
  cbn [Dashboard64.initial Dashboard64.totalValue Dashboard64.totalCost
       Dashboard64.totalGain].
  split; [reflexivity|]. split; [reflexivity|]. split; [reflexivity|].
  split; [|split].
  - intros H. now rewrite H.
  - intros H. now rewrite H.
  - intros H. rewrite H. reflexivity.
Qed.

(** C3 on two lots, one of them bought for nothing: cost 20, so the
    percentage is the quotient; value 36. *)
Lemma summary_projection_witness :
  let assets :=
    [ {| Dashboard64.quantity := 2; Dashboard64.avgPrice := 10;
         Dashboard64.currentPrice := 15 |};
      {| Dashboard64.quantity := 3; Dashboard64.avgPrice := 0;
         Dashboard64.currentPrice := 2 |} ] in
  Dashboard64.gainPercentage (Dashboard64.summary assets) = 80
  /\ Dashboard64.gainPercentage (Dashboard64.summary []) = 0.
Proof.
  intros assets. split.
  - destruct (proj1 summary_projection assets) as (_ & _ & _ & H & _).
    rewrite (H eq_refl). reflexivity.
  - destruct (proj1 summary_projection []) as (_ & _ & _ & _ & _ & H).
    exact (H eq_refl).
Defined.

End Summary64.

(** With nothing paid, no percentage is computed: the result is 0. *)
Example summary_zero_cost :
  Dashboard.gainPercentage
    (Dashboard.summary [Samples.lot "GIFT" 3 0 2 0]) = 0.
Proof. reflexivity. Qed.

(** ** Chat turn *)

Section Chat.
Import SidebarChat.

Lemma append_nil_r (a : string) : (a ++ "")%string = a.
Proof. induction a; simpl; congruence. Qed.

Lemma append_assoc (a b c : string) :
  ((a ++ b) ++ c)%string = (a ++ (b ++ c))%string.
Proof. induction a; simpl; congruence. Qed.

Lemma setLast_snoc base m m' : setLast (base ++ [m]) m' = base ++ [m'].
Proof.
  induction base as [|a base IH]; [reflexivity|].
  simpl. rewrite IH. destruct base; reflexivity.
Qed.

(** The loop over text fragments: the local accumulator grows by the
    fragments, and from the first fragment on the last message holds the
    accumulated text with the thinking flag cleared. *)
Lemma fold_onChunk fragments :
  forall acc base m inp ld,
    fold_left onChunk (map Some fragments)
      (acc, {| messages := base ++ [m]; input := inp; isLoading := ld |}) =
    ((acc ++ joinAll fragments)%string,
     {| messages :=
          base ++ [match fragments with
                   | [] => m
                   | _ => {| role := model;
                             text := (acc ++ joinAll fragments)%string;
                             isThinking := Some false |}
                   end];
        input := inp; isLoading := ld |}).
Proof.
  induction fragments as [|f rest IH]; intros acc base m inp ld.
  - simpl. now rewrite append_nil_r.
  - cbn [map fold_left]. unfold onChunk at 2.
    cbn [fst snd messages input isLoading chunkText].
    rewrite setLast_snoc, IH. cbn [joinAll].
    rewrite append_assoc.
    destruct rest; [|reflexivity].
    cbn [joinAll]. now rewrite !append_nil_r.
Qed.

Lemma beginTurn_eq st :
  beginTurn st =
  (EmptyString,
   {| messages := (messages st ++ [userMessage st]) ++ [placeholder];
      input := EmptyString; isLoading := true |}).
Proof. reflexivity. Qed.

End Chat.

(** The history after the first of three fragments. *)
Example history_after_first_fragment :
  SidebarChat.messages
    (snd (SidebarChat.afterChunks 1
            (SidebarChat.textStream ["Hel"; "lo, "; "world"])
            Samples.asking))
  = SidebarChat.messages Samples.asking
      ++ [ SidebarChat.userMessage Samples.asking;
           {| SidebarChat.role := SidebarChat.model;
              SidebarChat.text := "Hel";
              SidebarChat.isThinking := Some false |} ].
Proof. reflexivity. Qed.

(** A chunk without text is appended as the word "undefined". *)
Example chunk_without_text :
  fst (SidebarChat.afterChunks 2
         {| SidebarChat.chunks := [Some "Hi"; None];
            SidebarChat.fails := false |}
         Samples.asking)
  = "Hiundefined".
Proof. reflexivity. Qed.

(** C6, as stated, fails: with the fragments "Hel", "lo, ", "world" the
    assistant message is, after the first fragment, "Hel" with the
    thinking flag already cleared. *)
Lemma thinking_after_first_fragment_fails : ~ Stated.thinking_after_first_fragment.
Proof.
  intros H.
  destruct (H Samples.asking ["Hel"; "lo, "; "world"] eq_refl)
    as (history & m & Hm & Ht); [discriminate|].
  apply (f_equal (fun l => last l SidebarChat.placeholder)) in Hm.
  cbv beta in Hm. rewrite last_last in Hm.
  rewrite <- Hm in Ht. vm_compute in Ht. discriminate Ht.
Qed.

(** C6 (amended).  Against a stream of text fragments that ends normally,
    a send that passes the guard appends, after the user message, exactly
    one assistant message:
    - before any fragment it is the empty placeholder with the thinking
      flag set;
    - after the first [n >= 1] fragments its text is their concatenation
      in arrival order and the thinking flag is false;
    - when the handler has returned its text is the concatenation of all
      fragments, the session is idle, and, the stream having produced at
      least one fragment, the thinking flag is false. *)
Theorem chat_stream_assembly :
  forall st fragments,
    SidebarChat.canSend st = true ->
    let s := SidebarChat.textStream fragments in
    let history := SidebarChat.messages st ++ [SidebarChat.userMessage st] in
    SidebarChat.messages (snd (SidebarChat.afterChunks 0 s st)) =
      history ++ [ {| SidebarChat.role := SidebarChat.model;
                      SidebarChat.text := "";
                      SidebarChat.isThinking := Some true |} ]
    /\ (forall n,
          (1 <= n <= length fragments)%nat ->
          SidebarChat.messages (snd (SidebarChat.afterChunks n s st)) =
            history ++ [ {| SidebarChat.role := SidebarChat.model;
                            SidebarChat.text :=
                              SidebarChat.joinAll (firstn n fragments);
                            SidebarChat.isThinking := Some false |} ])
    /\ (exists m,
          SidebarChat.messages (SidebarChat.handleSend s st) = history ++ [m]
          /\ SidebarChat.role m = SidebarChat.model
          /\ SidebarChat.text m = SidebarChat.joinAll fragments
          /\ (fragments <> [] -> SidebarChat.isThinking m = Some false))
    /\ SidebarChat.isLoading (SidebarChat.handleSend s st) = false.
Proof.
  intros st fragments Hsend s history.
  split; [reflexivity|]. split; [|split].
  - intros n [Hn1 Hn2].
    unfold SidebarChat.afterChunks, s, SidebarChat.textStream.
    cbn [SidebarChat.chunks].
    rewrite firstn_map, beginTurn_eq, fold_onChunk.
    cbn [snd SidebarChat.messages]. fold history.
    destruct fragments as [|f rest]; [simpl in Hn2; lia|].
    destruct n as [|n]; [lia|]. reflexivity.
  - unfold SidebarChat.handleSend. rewrite Hsend.
    unfold s, SidebarChat.textStream.
    cbn [SidebarChat.chunks SidebarChat.fails].
    rewrite beginTurn_eq, fold_onChunk.
    unfold SidebarChat.endTurn.
    cbn [snd SidebarChat.messages]. fold history.
    eexists. split; [reflexivity|].
    destruct fragments as [|f rest].
    + repeat split. intros H. now elim H.
    + repeat split.
  - unfold SidebarChat.handleSend. rewrite Hsend. reflexivity.
Qed.

(** C6 on the fragments of the specification: "Hello, world". *)
Lemma chat_stream_assembly_witness :
  exists m,
    SidebarChat.messages
      (SidebarChat.handleSend
         (SidebarChat.textStream ["Hel"; "lo, "; "world"]) Samples.asking)
    = (SidebarChat.messages Samples.asking
         ++ [SidebarChat.userMessage Samples.asking]) ++ [m]
    /\ SidebarChat.role m = SidebarChat.model
    /\ SidebarChat.text m = "Hello, world"
    /\ SidebarChat.isThinking m = Some false.
Proof.
  destruct (chat_stream_assembly Samples.asking ["Hel"; "lo, "; "world"]
              eq_refl) as (_ & _ & (m & Hm & Hr & Ht & Hf) & _).
  exists m. split; [exact Hm|]. split; [exact Hr|].
  split; [exact Ht|]. apply Hf. discriminate.
Defined.

(** C5: the runs of [handleSend] in which the stream throws before its
    first fragment.  The error message is appended after the placeholder,
    which stays in the history with its thinking flag set; the session is
    idle again. *)
Theorem failed_turn_keeps_placeholder :
  forall st,
    SidebarChat.canSend st = true ->
    let st' := SidebarChat.handleSend
                 {| SidebarChat.chunks := []; SidebarChat.fails := true |}
                 st in
    SidebarChat.messages st' =
      ((SidebarChat.messages st ++ [SidebarChat.userMessage st])
         ++ [SidebarChat.placeholder]) ++ [SidebarChat.errorMessage]
    /\ existsb SidebarChat.showsThinking (SidebarChat.messages st') = true
    /\ SidebarChat.isLoading st' = false.
Proof.
  intros st Hsend st'.
  assert (Hm : SidebarChat.messages st' =
               ((SidebarChat.messages st ++ [SidebarChat.userMessage st])
                  ++ [SidebarChat.placeholder]) ++ [SidebarChat.errorMessage]).
  { unfold st', SidebarChat.handleSend. rewrite Hsend. reflexivity. }
  split; [exact Hm|]. split.
  - rewrite Hm, !existsb_app. cbn. now rewrite orb_true_r.
  - unfold st', SidebarChat.handleSend. rewrite Hsend. reflexivity.
Qed.

(** C5 on the sample chat: user message, thinking placeholder, error. *)
Lemma failed_turn_keeps_placeholder_witness :
  let st' := SidebarChat.handleSend
               {| SidebarChat.chunks := []; SidebarChat.fails := true |}
               Samples.asking in
  SidebarChat.messages st' =
    SidebarChat.messages Samples.asking
      ++ [ SidebarChat.userMessage Samples.asking;
           SidebarChat.placeholder;
           SidebarChat.errorMessage ]
  /\ existsb SidebarChat.showsThinking (SidebarChat.messages st') = true
  /\ SidebarChat.isLoading st' = false.
Proof.
  exact (failed_turn_keeps_placeholder Samples.asking eq_refl).
Defined.

(** The same failure after one fragment: the partial reply stays and the
    error message is appended after it. *)
Example failed_turn_after_fragment :
  SidebarChat.messages
    (SidebarChat.handleSend
       {| SidebarChat.chunks := [Some "Hel"]; SidebarChat.fails := true |}
       Samples.asking) =
  SidebarChat.messages Samples.asking
    ++ [ SidebarChat.userMessage Samples.asking;
         {| SidebarChat.role := SidebarChat.model;
            SidebarChat.text := "Hel";
            SidebarChat.isThinking := Some false |};
         SidebarChat.errorMessage ].
Proof. reflexivity. Qed.

(** ** News *)

Section Strings.

Lemma splitFrom_not_included sep :
  forall s cur,
    includes sep s = false ->
    splitFrom sep 0 cur s = [JsString.rev_append cur s].
Proof.
  induction s as [|c r IH]; intros cur H.
  - reflexivity.
  - cbn [includes] in H. apply orb_false_iff in H as [Hs Hr].
    cbn [splitFrom]. rewrite Hs. now rewrite IH.
Qed.

(** Without an occurrence of the separator, [split] returns the string. *)
Lemma split_not_included sep s : includes sep s = false -> split sep s = [s].
Proof. intros H. unfold split. now rewrite splitFrom_not_included. Qed.

Lemma splitFrom_length sep :
  forall s skip cur, (1 <= length (splitFrom sep skip cur s))%nat.
Proof.
  induction s as [|c r IH]; intros skip cur; cbn [splitFrom].
  - simpl. lia.
  - destruct skip; [|apply IH].
    destruct (startsWith sep (String c r)); [simpl; lia | apply IH].
Qed.

Lemma startsWith_app sep :
  forall a t, startsWith sep a = true -> startsWith sep (a ++ t) = true.
Proof.
  induction sep as [|x sep IH]; intros a t H; [reflexivity|].
  destruct a as [|y a]; [discriminate|].
  simpl in *. apply andb_true_iff in H as [H1 H2].
  now rewrite H1, IH.
Qed.

Lemma includes_app sep :
  forall a t, includes sep a = true -> includes sep (a ++ t) = true.
Proof.
  induction a as [|y a IH]; intros t H.
  - cbn [includes] in H. rewrite orb_false_r in H.
    destruct sep; [|discriminate]. destruct t; reflexivity.
  - cbn [includes] in H. apply orb_true_iff in H as [H|H].
    + change (String y a ++ t)%string with (String y (a ++ t)).
      cbn [includes]. change (String y (a ++ t)) with (String y a ++ t)%string.
      now rewrite startsWith_app.
    + change (String y a ++ t)%string with (String y (a ++ t)).
      cbn [includes]. rewrite (IH t H). apply orb_true_r.
Qed.

Lemma trimEnd_prefix : forall s, exists t, s = (trimEnd s ++ t)%string.
Proof.
  induction s as [|c r [t IH]].
  - now exists EmptyString.
  - cbn [trimEnd]. destruct (trimEnd r) as [|d r'] eqn:E.
    + destruct (isSpace c).
      * now exists (String c r).
      * now exists r.
    + exists t. simpl. simpl in IH. now rewrite <- IH.
Qed.

Lemma includes_trimEnd sep s :
  includes sep s = false -> includes sep (trimEnd s) = false.
Proof.
  intros H. destruct (includes sep (trimEnd s)) eqn:E; [|reflexivity].
  destruct (trimEnd_prefix s) as [t Ht].
  rewrite Ht in H. now rewrite (includes_app sep _ t E) in H.
Qed.

Lemma includes_trimStart sep :
  forall s, includes sep s = false -> includes sep (trimStart s) = false.
Proof.
  induction s as [|c r IH]; intros H; [exact H|].
  cbn [trimStart]. destruct (isSpace c); [|exact H].
  apply IH. cbn [includes] in H. now apply orb_false_iff in H as [_ H].
Qed.

(** Trimming creates no occurrence of a separator. *)
Lemma includes_trim sep s :
  includes sep s = false -> includes sep (trim s) = false.
Proof.
  intros H. unfold trim. now apply includes_trimEnd, includes_trimStart.
Qed.

Lemma isEmpty_length s : (0 <? String.length s)%nat = negb (isEmpty s).
Proof. destruct s; reflexivity. Qed.

End Strings.

Section News.
Import GeminiService.

Lemma mapFrom_length gc :
  forall l i, length (mapFrom gc i l) = length l.
Proof. induction l; intros; simpl; auto. Qed.

Lemma rawItems_length txt :
  (length (rawItems txt) <= length (split "|||" txt))%nat.
Proof.
  unfold rawItems.
  eapply Nat.le_trans; [apply filter_length_le|].
  now rewrite length_map.
Qed.

(** What [parseNews] returns, by the number of non-blank stories. *)
Lemma parseNews_cases response :
  let txt := textOf response in
  let gc := match groundingChunks response with Some l => l | None => [] end in
  (rawItems txt <> [] ->
   parseNews response = mapFrom gc 0 (rawItems txt))
  /\ (rawItems txt = [] -> txt <> EmptyString ->
      parseNews response =
      [ {| headline := "市場ニュース"; summary := txt;
           url := webUri (nth_error gc 0); source := "Google Search" |} ])
  /\ (txt = EmptyString -> parseNews response = []).
Proof.
  intros txt gc. unfold parseNews. fold txt. fold gc.
  split; [|split].
  - intros H. rewrite mapFrom_length.
    destruct (rawItems txt); [now elim H | reflexivity].
  - intros H Ht. rewrite H. simpl.
    destruct txt; [now elim Ht | reflexivity].
  - intros H. rewrite H. reflexivity.
Qed.

(** A text without delimiters has one story at most: itself, trimmed. *)
Lemma rawItems_plain txt :
  includes "|||" txt = false ->
  rawItems txt = if isEmpty (trim txt) then [] else [trim txt].
Proof.
  intros H. unfold rawItems. rewrite (split_not_included "|||" txt H).
  cbn [map filter]. rewrite isEmpty_length.
  destruct (isEmpty (trim txt)); reflexivity.
Qed.

Lemma toNewsItem_plain gc raw index :
  includes "::" raw = false ->
  summary (toNewsItem gc raw index) = raw.
Proof.
  intros H. unfold toNewsItem.
  rewrite (split_not_included "::" raw H). reflexivity.
Qed.

End News.

(** A one-line answer that ends with a line feed. *)
Example news_trailing_line_feed :
  map GeminiService.summary
    (GeminiService.fetchStockNews ["ITUB"]
       (Samples.answer ("Market steady today" ++ Samples.newline)%string))
  = ["Market steady today"].
Proof. reflexivity. Qed.

(** Stories with and without a summary, and a blank one. *)
Example news_stories :
  map (fun n => (GeminiService.headline n, GeminiService.summary n))
    (GeminiService.fetchStockNews ["ITUB"; "AAPL"]
       (Samples.answer "Rates :: Cut by 25bp ||| |||No separator here"))
  = [("Rates", "Cut by 25bp");
     ("No separator here", "No separator here")].
Proof. reflexivity. Qed.

(** C8, as stated, fails: the text "Market steady today" followed by a
    line feed gives the summary "Market steady today", without the line
    feed. *)
Lemma plain_text_summary_is_raw_text_fails : ~ Stated.plain_text_summary_is_raw_text.
Proof.
  intros H.
  destruct (H ["ITUB"] ("Market steady today" ++ Samples.newline)%string None)
    as (item & Hi & Hs); try reflexivity; try discriminate.
  vm_compute in Hi. injection Hi as <-. discriminate Hs.
Qed.

(** C8 (amended).  When the model answers a request for at least one
    ticker with a non-empty text, [fetchStockNews]
    - returns a non-empty list;
    - for a text with no "|||" and no "::", returns exactly one item,
      whose summary is the text with the white space at both ends removed,
      or the text itself when it is white space only;
    - when no story is left after splitting and trimming, returns exactly
      one item whose summary is the full raw text. *)
Theorem news_never_discarded :
  forall tickers response txt,
    tickers <> [] ->
    GeminiService.text response = Some txt ->
    txt <> EmptyString ->
    let news :=
      GeminiService.fetchStockNews tickers (Completion.Normal response) in
    news <> []
    /\ (includes "|||" txt = false ->
        includes "::" txt = false ->
        exists item,
          news = [item] /\
          GeminiService.summary item =
          if isEmpty (trim txt) then txt else trim txt)
    /\ (GeminiService.rawItems txt = [] ->
        exists item, news = [item] /\ GeminiService.summary item = txt).
Proof.
  intros tickers response txt Htk Htxt Hne news.
  assert (Hnews : news = GeminiService.parseNews response).
  { unfold news, GeminiService.fetchStockNews.
    destruct tickers; [now elim Htk | reflexivity]. }
  assert (Hof : GeminiService.textOf response = txt).
  { unfold GeminiService.textOf. now rewrite Htxt. }
  destruct (parseNews_cases response) as (Hsome & Hnone & _).
  rewrite Hof in Hsome, Hnone.
  assert (Hfallback : GeminiService.rawItems txt = [] ->
            exists item, news = [item] /\ GeminiService.summary item = txt).
  { intros Hr. rewrite Hnews, (Hnone Hr Hne).
    eexists. split; reflexivity. }
  split; [|split].
  - destruct (GeminiService.rawItems txt) as [|raw rest] eqn:Er.
    + destruct (Hfallback eq_refl) as (item & -> & _). discriminate.
    + rewrite Hnews, Hsome by discriminate. discriminate.
  - intros Hbar Hcolon.
    pose proof (rawItems_plain txt Hbar) as Hr.
    destruct (isEmpty (trim txt)) eqn:Ee.
    + exact (Hfallback Hr).
    + rewrite Hnews, Hsome by (rewrite Hr; discriminate).
      rewrite Hr. cbn [GeminiService.mapFrom].
      eexists. split; [reflexivity|].
      apply toNewsItem_plain. now apply includes_trim.
  - exact Hfallback.
Qed.

(** C8 on the fallback example of the specification. *)
Lemma news_never_discarded_witness :
  exists item,
    GeminiService.fetchStockNews ["ITUB"]
      (Samples.answer "Market steady today") = [item]
    /\ GeminiService.summary item = "Market steady today".
Proof.
  exact (proj1 (proj2
           (news_never_discarded ["ITUB"]
              {| GeminiService.text := Some "Market steady today";
                 GeminiService.groundingChunks := None |}
              "Market steady today"
              ltac:(discriminate) eq_refl ltac:(discriminate)))
           eq_refl eq_refl).
Defined.

(** C9, as stated, fails: eleven stories separated by "|||" give eleven
    items. *)
Lemma news_at_most_ten_fails : ~ Stated.news_at_most_ten.
Proof.
  intros H.
  specialize (H ["ITUB"]
                (Samples.answer
                   "a|||b|||c|||d|||e|||f|||g|||h|||i|||j|||k")).
  vm_compute in H. lia.
Qed.

Section Blank.

Lemma trimStart_blank s :
  NewsWire.allSpace s = true -> trimStart s = EmptyString.
Proof.
  induction s as [|c s IH]; simpl; [reflexivity|].
  intros H. apply andb_true_iff in H as [Hc Hs]. now rewrite Hc, IH.
Qed.

Lemma trimStart_not_blank s :
  NewsWire.allSpace s = false ->
  exists c r, trimStart s = String c r /\ isSpace c = false.
Proof.
  induction s as [|c s IH]; simpl; [discriminate|].
  destruct (isSpace c) eqn:E; simpl; intros H.
  - now apply IH.
  - now exists c, s.
Qed.

Lemma trimEnd_keeps_start c r :
  isSpace c = false -> trimEnd (String c r) <> EmptyString.
Proof.
  intros H. cbn [trimEnd]. rewrite H.
  destruct (trimEnd r); discriminate.
Qed.

(** A string trims to nothing exactly when it is white space only. *)
Lemma trim_blank s : isEmpty (trim s) = NewsWire.allSpace s.
Proof.
  unfold trim. destruct (NewsWire.allSpace s) eqn:E.
  - now rewrite (trimStart_blank s E).
  - destruct (trimStart_not_blank s E) as (c & r & -> & Hc).
    pose proof (trimEnd_keeps_start c r Hc) as H.
    destruct (trimEnd (String c r)); [now elim H | reflexivity].
Qed.

Lemma rawItems_segments txt :
  GeminiService.rawItems txt = map trim (NewsWire.nonBlankSegments txt).
Proof.
  unfold GeminiService.rawItems, NewsWire.nonBlankSegments.
  induction (split "|||" txt) as [|seg l IH]; [reflexivity|].
  cbn [map filter].
  rewrite isEmpty_length, trim_blank.
  destruct (NewsWire.allSpace seg); cbn [negb map]; now rewrite IH.
Qed.

End Blank.

(** C9 (amended).  [fetchStockNews] returns a list with at most one item
    per "|||"-separated segment of the answer, and none when the call
    fails or no ticker is given; for at least one ticker there is exactly
    one item per segment that is not white space only, the item at each
    position made from the trimmed segment at that position, one single
    item when every segment is blank but the answer is not empty, and
    none for an empty answer.  No bound of 10 is enforced. *)
Theorem news_count :
  forall tickers call,
    (length (GeminiService.fetchStockNews tickers call) <=
     match call with
     | Completion.Normal response =>
         length (split "|||" (GeminiService.textOf response))
     | Completion.Throw => 0
     end)%nat
    /\ (tickers = [] -> GeminiService.fetchStockNews tickers call = [])
    /\ (forall response,
          tickers <> [] ->
          call = Completion.Normal response ->
          let txt := GeminiService.textOf response in
          let segments := NewsWire.nonBlankSegments txt in
          (segments <> [] ->
           length (GeminiService.fetchStockNews tickers call) =
           length segments
           /\ forall i segment,
                nth_error segments i = Some segment ->
                exists item,
                  nth_error (GeminiService.fetchStockNews tickers call) i
                    = Some item
                  /\ (includes "::" segment = false ->
                      GeminiService.summary item = trim segment))
          /\ (segments = [] -> txt <> EmptyString ->
              length (GeminiService.fetchStockNews tickers call) = 1%nat)
          /\ (txt = EmptyString ->
              GeminiService.fetchStockNews tickers call = [])).
Proof.
  intros tickers call. split; [|split].
  - unfold GeminiService.fetchStockNews.
    destruct tickers as [|tk tickers]; cbn [length Nat.eqb]; [lia|].
    destruct call as [response|]; [|simpl; lia].
    destruct (parseNews_cases response) as (Hsome & Hnone & Hempty).
    destruct (GeminiService.rawItems (GeminiService.textOf response))
      as [|raw rest] eqn:Er.
    + destruct (GeminiService.textOf response) as [|c r] eqn:Et.
      * rewrite (Hempty eq_refl). simpl. lia.
      * rewrite (Hnone eq_refl) by discriminate.
        apply (splitFrom_length "|||").
    + rewrite Hsome by discriminate.
      rewrite mapFrom_length, <- Er. apply rawItems_length.
  - intros ->. reflexivity.
  - intros response Htk -> txt segments.
    unfold GeminiService.fetchStockNews.
    destruct tickers; [now elim Htk|]. cbn [length Nat.eqb].
    destruct (parseNews_cases response) as (Hsome & Hnone & Hempty).
    fold txt in Hsome, Hnone, Hempty.
    rewrite (rawItems_segments txt) in Hsome, Hnone. fold segments in Hsome, Hnone.
    split; [|split].
    + intros Hs.
      assert (Hm : map trim segments <> [])
        by (destruct segments; [now elim Hs | discriminate]).
      rewrite (Hsome Hm). split.
      * now rewrite mapFrom_length, length_map.
      * intros i segment Hi.
        assert (Hraw : nth_error (map trim segments) i = Some (trim segment))
          by (rewrite nth_error_map, Hi; reflexivity).
        clear Hsome Hnone Hempty Hm Hs Hi.
        revert Hraw. generalize (map trim segments). generalize 0%nat.
        induction i as [|i IH]; intros index l Hraw.
        -- destruct l as [|raw l]; [discriminate Hraw|].
           injection Hraw as ->. cbn [GeminiService.mapFrom nth_error].
           eexists. split; [reflexivity|].
           intros Hc. apply toNewsItem_plain. now apply includes_trim.
        -- destruct l as [|raw l]; [discriminate Hraw|].
           cbn [GeminiService.mapFrom nth_error]. apply (IH (S index) l Hraw).
    + intros Hs Ht. rewrite Hs in Hnone. now rewrite (Hnone eq_refl Ht).
    + intros Ht. now rewrite (Hempty Ht).
Qed.

(** C9 on an answer with twelve segments, one of them blank: eleven
    items. *)
Lemma news_count_witness :
  length (GeminiService.fetchStockNews ["ITUB"]
            (Samples.answer
               "a|||b|||c|||d|||e|||f|||g|||h|||i|||j|||   |||k"))
  = 11%nat.
Proof.
  exact (proj1 (proj1 (proj2 (proj2 (news_count ["ITUB"]
           (Samples.answer
              "a|||b|||c|||d|||e|||f|||g|||h|||i|||j|||   |||k")))
           _ ltac:(discriminate) eq_refl) ltac:(discriminate))).
Defined.

(** ** Receipt upload *)

Section Upload.
Import AddAssetModal Completion.

Variable Number_toString : Q -> string.
Variable parse :
  option string -> string -> Completion.t (option GeminiService.TradeFields).

Lemma upload_started file result st :
  upload Number_toString parse (Some file) (Normal tt) result st =
  snd (onloadend Number_toString parse file result (started st)).
Proof. reflexivity. Qed.

(** A successful read followed by an answer with fields. *)
Lemma upload_data file url data st :
  parse (nth_error (split "," url) 1) (type file) = Normal (Some data) ->
  upload Number_toString parse (Some file) (Normal tt) (Some url) st =
  {| activeTab := manual; isProcessing := false;
     loadingStatus := statusExtracted;
     ticker := match GeminiService.ticker data with
               | Some t => if truthyString t then t else ticker st
               | None => ticker st
               end;
     qty := match GeminiService.quantity data with
            | Some q => if truthyNumber q then Number_toString q else qty st
            | None => qty st
            end;
     price := match GeminiService.avgPrice data with
              | Some p => if truthyNumber p then Number_toString p
                          else price st
              | None => price st
              end;
     source := source st |}.
Proof.
  intros Hp. rewrite upload_started.
  unfold onloadend, bind, ret, await. rewrite Hp.
  unfold patchForm, whenTruthy, bind, ret.
  destruct data as [[t|] cn [q|] [p|]]; cbn [GeminiService.ticker
    GeminiService.quantity GeminiService.avgPrice];
    repeat match goal with
           | |- context [truthyString ?x] => destruct (truthyString x)
           | |- context [truthyNumber ?x] => destruct (truthyNumber x)
           end; reflexivity.
Qed.

End Upload.

(** The answer {ticker: "MSFT", quantity: 0} against the typed form. *)
Example upload_zero_quantity :
  AddAssetModal.upload AddAssetModal.integralToString
    (Samples.receipt
       {| GeminiService.ticker := Some "MSFT";
          GeminiService.companyName := None;
          GeminiService.quantity := Some 0;
          GeminiService.avgPrice := None |})
    (Some Samples.png) (Completion.Normal tt) (Some Samples.dataUrl)
    Samples.typed
  = {| AddAssetModal.activeTab := AddAssetModal.manual;
       AddAssetModal.isProcessing := false;
       AddAssetModal.loadingStatus := AddAssetModal.statusExtracted;
       AddAssetModal.ticker := "MSFT";
       AddAssetModal.qty := "5";
       AddAssetModal.price := "321";
       AddAssetModal.source := GEMINI |}.
Proof. reflexivity. Qed.

Example integralToString_321 : AddAssetModal.integralToString 321 = "321".
Proof. reflexivity. Qed.

(** C7, as stated, fails: the answer {ticker: "MSFT", quantity: 0} has a
    quantity, but the quantity field of the form keeps the "5" typed
    before instead of becoming "0". *)
Lemma receipt_patches_present_fields_fails : ~ Stated.receipt_patches_present_fields.
Proof.
  intros H.
  destruct (H AddAssetModal.integralToString Samples.png Samples.dataUrl
              {| GeminiService.ticker := Some "MSFT";
                 GeminiService.companyName := None;
                 GeminiService.quantity := Some 0;
                 GeminiService.avgPrice := None |}
              Samples.typed) as (_ & Hq & _).
  specialize (Hq 0 eq_refl). vm_compute in Hq. discriminate Hq.
Qed.

(** C7 (amended).  After a successful read and an answer with fields, the
    form has
    - the ticker of the answer when it is present and not empty, the
      quantity and the price of the answer (as strings) when they are
      present and not 0;
    - its previous value in every field the answer does not have, and
      also in a field the answer has with an empty ticker or a number 0;
    - [companyName] used nowhere (any other company name gives the same
      form), the attribution tag unchanged;
    so an answer with a ticker only changes the ticker field only. *)
Theorem receipt_patch_frame :
  forall Number_toString parse file url data st,
    parse (nth_error (split "," url) 1) (AddAssetModal.type file)
      = Completion.Normal (Some data) ->
    let st' := AddAssetModal.upload Number_toString parse
                 (Some file) (Completion.Normal tt) (Some url) st in
    (forall t, GeminiService.ticker data = Some t -> t <> EmptyString ->
               AddAssetModal.ticker st' = t)
    /\ (forall q, GeminiService.quantity data = Some q -> ~ q == 0 ->
                  AddAssetModal.qty st' = Number_toString q)
    /\ (forall p, GeminiService.avgPrice data = Some p -> ~ p == 0 ->
                  AddAssetModal.price st' = Number_toString p)
    /\ (GeminiService.ticker data = None ->
        AddAssetModal.ticker st' = AddAssetModal.ticker st)
    /\ (GeminiService.quantity data = None ->
        AddAssetModal.qty st' = AddAssetModal.qty st)
    /\ (GeminiService.avgPrice data = None ->
        AddAssetModal.price st' = AddAssetModal.price st)
    /\ (GeminiService.ticker data = Some EmptyString ->
        AddAssetModal.ticker st' = AddAssetModal.ticker st)
    /\ (forall q, GeminiService.quantity data = Some q -> q == 0 ->
                  AddAssetModal.qty st' = AddAssetModal.qty st)
    /\ (forall p, GeminiService.avgPrice data = Some p -> p == 0 ->
                  AddAssetModal.price st' = AddAssetModal.price st)
    /\ (forall name,
          AddAssetModal.upload Number_toString
            (Samples.receipt
               {| GeminiService.ticker := GeminiService.ticker data;
                  GeminiService.companyName := name;
                  GeminiService.quantity := GeminiService.quantity data;
                  GeminiService.avgPrice := GeminiService.avgPrice data |})
            (Some file) (Completion.Normal tt) (Some url) st = st')
    /\ AddAssetModal.source st' = AddAssetModal.source st
    /\ AddAssetModal.isProcessing st' = false.
Proof.
  intros Number_toString parse file url data st Hp st'.
  unfold st'. rewrite (upload_data Number_toString parse file url data st Hp).
  cbn [AddAssetModal.ticker AddAssetModal.qty AddAssetModal.price
       AddAssetModal.source AddAssetModal.isProcessing].
  repeat split.
  - intros t -> Ht. destruct t; [now elim Ht | reflexivity].
  - intros q -> Hq. now rewrite (truthyNumber_nonzero q Hq).
  - intros p -> Hq. now rewrite (truthyNumber_nonzero p Hq).
  - now intros ->.
  - now intros ->.
  - now intros ->.
  - now intros ->.
  - intros q -> Hq. now rewrite (truthyNumber_zero q Hq).
  - intros p -> Hq. now rewrite (truthyNumber_zero p Hq).
  - intros name.
    now rewrite (upload_data Number_toString _ file url _ st eq_refl).
Qed.

(** C7 on the answer {"ticker": "MSFT"} of the specification, and on the
    answer {ticker: "", quantity: 0, avgPrice: 99}: in the first the
    ticker is filled in and the typed quantity and price stay, in the
    second only the price changes. *)
Lemma receipt_patch_frame_witness :
  let st' := AddAssetModal.upload AddAssetModal.integralToString
               (Samples.receipt
                  {| GeminiService.ticker := Some "MSFT";
                     GeminiService.companyName := None;
                     GeminiService.quantity := None;
                     GeminiService.avgPrice := None |})
               (Some Samples.png) (Completion.Normal tt)
               (Some Samples.dataUrl) Samples.typed in
  let st'' := AddAssetModal.upload AddAssetModal.integralToString
               (Samples.receipt
                  {| GeminiService.ticker := Some EmptyString;
                     GeminiService.companyName := Some "Microsoft";
                     GeminiService.quantity := Some 0;
                     GeminiService.avgPrice := Some 99 |})
               (Some Samples.png) (Completion.Normal tt)
               (Some Samples.dataUrl) Samples.typed in
  (AddAssetModal.ticker st' = "MSFT"
   /\ AddAssetModal.qty st' = "5"
   /\ AddAssetModal.price st' = "321")
  /\ (AddAssetModal.ticker st'' = EmptyString
      /\ AddAssetModal.qty st'' = "5"
      /\ AddAssetModal.price st'' = "99").
Proof.
  intros st' st''. split.
  - destruct (receipt_patch_frame AddAssetModal.integralToString
                (Samples.receipt
                   {| GeminiService.ticker := Some "MSFT";
                      GeminiService.companyName := None;
                      GeminiService.quantity := None;
                      GeminiService.avgPrice := None |})
                Samples.png Samples.dataUrl _ Samples.typed eq_refl)
      as (Ht & _ & _ & _ & Hq & Hp & _).
    split; [apply Ht; [reflexivity | discriminate]|].
    split; [exact (Hq eq_refl) | exact (Hp eq_refl)].
  - destruct (receipt_patch_frame AddAssetModal.integralToString
                (Samples.receipt
                   {| GeminiService.ticker := Some EmptyString;
                      GeminiService.companyName := Some "Microsoft";
                      GeminiService.quantity := Some 0;
                      GeminiService.avgPrice := Some 99 |})
                Samples.png Samples.dataUrl _ Samples.typed eq_refl)
      as (_ & _ & Hp & _ & _ & _ & Ht & Hq & _).
    split; [exact (Ht eq_refl)|].
    split; [exact (Hq 0 eq_refl ltac:(reflexivity))|].
    exact (Hp 99 eq_refl ltac:(discriminate)).
Defined.

(** C4: the runs of the upload in which the extraction call rejects (the
    request fails, or [JSON.parse] throws on the answer) or the file read
    fails.  The error is raised inside the [loadend] callback, out of
    reach of the [try] block of the handler: [isProcessing] stays true
    and the status stays the "analysing" one. *)
Theorem upload_failure_stays_processing :
  forall Number_toString JSON_parse file url st,
    let rejected :=
      fun (_ : option string) (_ : string) =>
        GeminiService.parseTradeScreenshot Completion.Throw JSON_parse in
    let malformed :=
      fun (_ : option string) (_ : string) =>
        GeminiService.parseTradeScreenshot
          (Samples.answer "{") (fun _ => Completion.Throw) in
    let st1 := AddAssetModal.upload Number_toString rejected
                 (Some file) (Completion.Normal tt) (Some url) st in
    let st2 := AddAssetModal.upload Number_toString malformed
                 (Some file) (Completion.Normal tt) (Some url) st in
    let st3 := AddAssetModal.upload Number_toString rejected
                 (Some file) (Completion.Normal tt) None st in
    (AddAssetModal.isProcessing st1 = true /\
     AddAssetModal.loadingStatus st1 = AddAssetModal.statusAnalysing)
    /\ (AddAssetModal.isProcessing st2 = true /\
        AddAssetModal.loadingStatus st2 = AddAssetModal.statusAnalysing)
    /\ (AddAssetModal.isProcessing st3 = true /\
        AddAssetModal.loadingStatus st3 = AddAssetModal.statusAnalysing).
Proof. intros. repeat split. Qed.

(** The path the [catch] block does cover: a reader that cannot be
    started. *)
Example upload_reader_throws :
  let st' := AddAssetModal.upload AddAssetModal.integralToString
               (Samples.receipt
                  {| GeminiService.ticker := None;
                     GeminiService.companyName := None;
                     GeminiService.quantity := None;
                     GeminiService.avgPrice := None |})
               (Some Samples.png) Completion.Throw None Samples.typed in
  AddAssetModal.isProcessing st' = false /\
  AddAssetModal.loadingStatus st' = AddAssetModal.statusFailed.
Proof. split; reflexivity. Qed.

(* ================================================================== *)
(** * Further properties of the same code *)

(** ** Refresh and add *)

Section RefreshFrame.
Import App.

Lemma mergeAsset_identity entries now a :
  Portfolio.identity (mergeAsset entries now a) = Portfolio.identity a.
Proof.
  unfold mergeAsset.
  destruct (newPriceOf entries (ticker a)) as [v|]; [|reflexivity].
  destruct (truthy v); reflexivity.
Qed.

Lemma mergeFrom_identity clock entries :
  forall l j,
    map Portfolio.identity (mergeFrom clock entries j l) =
    map Portfolio.identity l.
Proof.
  induction l as [|a l IH]; intros j; simpl; [reflexivity|].
  now rewrite mergeAsset_identity, IH.
Qed.

Lemma mergeFrom_unmatched clock entries :
  forall l j,
    (forall a, In a l -> NoMatch entries (ticker a)) ->
    mergeFrom clock entries j l = l.
Proof.
  induction l as [|a l IH]; intros j H; simpl; [reflexivity|].
  rewrite (mergeAsset_unmatched entries (clock j) a).
  - rewrite IH; [reflexivity|]. intros b Hb. apply H. now right.
  - apply findEntry_none. apply H. now left.
Qed.

Lemma mergeFrom_app clock entries :
  forall l l' j,
    mergeFrom clock entries j (l ++ l') =
    mergeFrom clock entries j l
      ++ mergeFrom clock entries (j + length l) l'.
Proof.
  induction l as [|a l IH]; intros l' j; simpl.
  - now rewrite Nat.add_0_r.
  - rewrite IH. now rewrite Nat.add_succ_r.
Qed.

Lemma refreshAssets_identity clock closure marketData prevAssets :
  map Portfolio.identity (refreshAssets clock closure marketData prevAssets) =
  map Portfolio.identity prevAssets.
Proof.
  unfold refreshAssets.
  destruct marketData as [md|]; [|reflexivity].
  destruct (prices md) as [entries|]; [|reflexivity].
  destruct (0 <? length closure)%nat; [|reflexivity].
  apply mergeFrom_identity.
Qed.

End RefreshFrame.

(** X1.  A refresh never adds, removes or reorders records, and every
    record keeps its id, ticker, company name, quantity, average price,
    attribution tag and icon, whatever the market call returned. *)
Theorem refresh_preserves_identity :
  forall clock marketData st,
    map Portfolio.identity
        (App.assets (App.handleRefreshMarketData clock marketData st)) =
    map Portfolio.identity (App.assets st).
Proof.
  intros clock marketData st. rewrite assets_handleRefresh.
  apply refreshAssets_identity.
Qed.

(** X2.  When no key of the price mapping matches the ticker of any
    record (an empty mapping, prices for other stocks), the refresh
    returns the collection as it was, time stamps included. *)
Theorem refresh_without_match_is_identity :
  forall clock md entries st,
    App.prices md = Some entries ->
    (forall a, In a (App.assets st) -> App.NoMatch entries (ticker a)) ->
    App.assets (App.handleRefreshMarketData clock (Some md) st) =
    App.assets st.
Proof.
  intros clock md entries st Hp Hn.
  rewrite assets_handleRefresh.
  rewrite (refreshAssets_present clock md entries (App.assets st) Hp).
  now apply mergeFrom_unmatched.
Qed.

Lemma refresh_without_match_is_identity_witness :
  App.assets
    (App.handleRefreshMarketData Samples.noon
       (Some (Samples.snapshot [("MSFT", JNumber 410)]))
       (Samples.portfolio [Samples.aaa; Samples.bbb]))
  = [Samples.aaa; Samples.bbb].
Proof.
  apply (refresh_without_match_is_identity Samples.noon
           (Samples.snapshot [("MSFT", JNumber 410)])
           [("MSFT", JNumber 410)]
           (Samples.portfolio [Samples.aaa; Samples.bbb]) eq_refl).
  intros a [<-|[<-|[]]] e [<-|[]]; discriminate.
Defined.



(** X4.  Adding an asset and refreshing commute: refreshing the
    collection with the new asset at its end gives the refreshed old
    collection followed by the new asset merged on its own (at the clock
    reading of its index), also when the old collection is empty. *)
Theorem refresh_after_add :
  forall clock md entries asset st,
    App.prices md = Some entries ->
    App.assets
      (App.handleRefreshMarketData clock (Some md)
         (Portfolio.handleAddAsset asset st)) =
    App.assets (App.handleRefreshMarketData clock (Some md) st)
      ++ [App.mergeAsset entries (clock (length (App.assets st))) asset].
Proof.
  intros clock md entries asset st Hp.
  rewrite !assets_handleRefresh.
  rewrite (refreshAssets_present clock md entries _ Hp).
  rewrite (refreshAssets_present clock md entries _ Hp).
  cbn [Portfolio.handleAddAsset App.assets].
  unfold App.mergePrices. now rewrite mergeFrom_app.
Qed.

Lemma refresh_after_add_witness :
  App.assets
    (App.handleRefreshMarketData Samples.noon
       (Some (Samples.snapshot [("bbb", JNumber 25)]))
       (Portfolio.handleAddAsset Samples.bbb
          (Samples.portfolio [Samples.aaa])))
  = [Samples.aaa; Samples.lot "BBB" 1 20 25 1000].
Proof.
  exact (refresh_after_add Samples.noon
           (Samples.snapshot [("bbb", JNumber 25)])
           [("bbb", JNumber 25)] Samples.bbb
           (Samples.portfolio [Samples.aaa]) eq_refl).
Defined.

(** ** Rows, totals and the chart *)

Section Totals.
Import Dashboard.

(** The cost total reads only quantities and average prices. *)
Lemma fold_reducer_totalCost_ext :
  forall l1 l2 acc1 acc2,
    map (fun a => (quantity a, avgPrice a)) l1 =
    map (fun a => (quantity a, avgPrice a)) l2 ->
    totalCost acc1 = totalCost acc2 ->
    totalCost (fold_left reducer l1 acc1) =
    totalCost (fold_left reducer l2 acc2).
Proof.
  induction l1 as [|a l1 IH]; intros [|b l2] acc1 acc2 Hm Hc;
    try discriminate Hm; [exact Hc|].
  simpl in Hm. injection Hm as Hq Ha Hm.
  simpl. apply IH; [exact Hm|].
  simpl. now rewrite Hc, Hq, Ha.
Qed.



End Totals.

(** X6.  Adding an asset raises the total value of the summary by its
    quantity times its current price and the total cost by its quantity
    times its average price; the other records count as before. *)
Theorem summary_after_add :
  forall asset st,
    let before := Dashboard.summary (App.assets st) in
    let after :=
      Dashboard.summary (App.assets (Portfolio.handleAddAsset asset st)) in
    Dashboard.totalValue after =
      Dashboard.totalValue before + quantity asset * currentPrice asset
    /\ Dashboard.totalCost after =
      Dashboard.totalCost before + quantity asset * avgPrice asset
    /\ Dashboard.totalGain after =
      Dashboard.totalGain before
      + (quantity asset * currentPrice asset
         - quantity asset * avgPrice asset).
Proof.
  intros asset st before after. unfold after, before, Dashboard.summary.
  cbn [Portfolio.handleAddAsset App.assets].
  rewrite fold_left_app. repeat split.
Qed.

(** X7.  A refresh never changes the total cost of the summary, whatever
    the market call returned: the cost is computed from quantities and
    average prices only, which the merge copies. *)
Theorem refresh_keeps_total_cost :
  forall clock marketData st,
    Dashboard.totalCost
      (Dashboard.summary
         (App.assets (App.handleRefreshMarketData clock marketData st)))
    = Dashboard.totalCost (Dashboard.summary (App.assets st)).
Proof.
  intros clock marketData st.
  unfold Dashboard.summary. cbn [Dashboard.totalCost].
  apply fold_reducer_totalCost_ext; [|reflexivity].
  rewrite assets_handleRefresh.
  pose proof (refreshAssets_identity clock (App.assets st) marketData
                (App.assets st)) as H.
  apply (f_equal (map (fun t : string * string * string * Q * Q
                                * AISource * option string =>
                         match t with
                         | (_, _, _, q, p, _, _) => (q, p)
                         end))) in H.
  rewrite !map_map in H. exact H.
Qed.



Section Chart.
Import DashboardView.

Variable random : nat -> Q.
Variable now : nat -> JsDate.t.

Hypothesis random_range : forall i, 0 <= random i /\ random i < 1.

(** One step back in time divides by a factor between 0.95 and 1.1. *)
Lemma history_step_positive i v :
  0 < v -> 0 < v / (1 + (random i * 0.15 - 0.05)).
Proof.
  intros Hv. destruct (random_range i) as [H0 H1].
  apply Qlt_shift_div_l; lra.
Qed.

Lemma historyLoop_positive :
  forall n i v data,
    0 < v ->
    Forall (fun p => 0 < value p) data ->
    Forall (fun p => 0 < value p) (historyLoop random now n i v data).
Proof.
  induction n as [|n IH]; intros i v data Hv Hd; simpl; [exact Hd|].
  apply IH.
  - now apply history_step_positive.
  - constructor; [exact Hv | exact Hd].
Qed.

End Chart.

Section ChartLabels.
Import DashboardView.

Lemma daysInMonth_at_least_28 y m : (28 <= JsDate.daysInMonth y m)%Z.
Proof.
  unfold JsDate.daysInMonth.
  destruct (m =? 1)%Z; [destruct (JsDate.isLeapYear y); lia|].
  destruct ((m =? 3) || (m =? 5) || (m =? 8) || (m =? 10))%Z; lia.
Qed.

(** Up to the 28th the month is the one asked for. *)
Lemma chartLabel_early d i :
  (JsDate.day d <= 28)%Z ->
  chartLabel d i = monthLabel ((JsDate.month d - Z.of_nat i) mod 12)%Z.
Proof.
  intros Hd. unfold chartLabel, JsDate.setMonth, JsDate.getMonth.
  pose proof (daysInMonth_at_least_28
                (JsDate.year d + (JsDate.month d - Z.of_nat i) / 12)%Z
                ((JsDate.month d - Z.of_nat i) mod 12)%Z) as H.
  destruct (Z.leb_spec (JsDate.day d)
              (JsDate.daysInMonth
                 (JsDate.year d + (JsDate.month d - Z.of_nat i) / 12)%Z
                 ((JsDate.month d - Z.of_nat i) mod 12)%Z)); [reflexivity|lia].
Qed.

End ChartLabels.

(** March 31st: February and November have no 31st, so the labels of the
    six points are 10, 12, 12, 1, 3, 3. *)
Example history_labels_on_the_31st :
  map DashboardView.date
      (DashboardView.historyData (fun _ => 1 # 2)
         (fun _ => {| JsDate.year := 2025; JsDate.month := 2;
                      JsDate.day := 31 |})
         (Dashboard.summary [Samples.lot "AAPL" 2 10 15 0]))
  = ["10月"; "12月"; "12月"; "1月"; "3月"; "3月"].
Proof. reflexivity. Qed.

(** X9.  The chart has no point for a total value of 0 and six points
    otherwise, the last of them at the current total value; when the
    date is the same in all iterations and not later than the 28th of the
    month, the labels are the six months that end with the current one,
    in order; when the total value is positive every point is positive,
    whatever [Math.random] returns in [0, 1). *)
Theorem history_chart :
  forall random now summary,
    (Dashboard.totalValue summary == 0 ->
     DashboardView.historyData random now summary = [])
    /\ (~ Dashboard.totalValue summary == 0 ->
        length (DashboardView.historyData random now summary) = 6%nat
        /\ option_map DashboardView.value
             (nth_error (DashboardView.historyData random now summary) 5)
           = Some (Dashboard.totalValue summary)
        /\ (forall today,
              (forall i, now i = today) ->
              (JsDate.day today <= 28)%Z ->
              map DashboardView.date
                  (DashboardView.historyData random now summary)
              = map (fun back =>
                       DashboardView.monthLabel
                         ((JsDate.month today - back) mod 12)%Z)
                    [5; 4; 3; 2; 1; 0]%Z))
    /\ ((forall i, 0 <= random i /\ random i < 1) ->
        0 < Dashboard.totalValue summary ->
        Forall (fun p => 0 < DashboardView.value p)
               (DashboardView.historyData random now summary)).
Proof.
  intros random now summary. unfold DashboardView.historyData.
  split; [|split].
  - intros H. apply Qeq_bool_iff in H. now rewrite H.
  - intros H. destruct (Qeq_bool _ 0) eqn:E.
    + apply Qeq_bool_iff in E. contradiction.
    + split; [reflexivity|]. split; [reflexivity|].
      intros today Hnow Hday.
      cbn [DashboardView.historyLoop map DashboardView.date].
      rewrite !Hnow, !(chartLabel_early today _ Hday).
      reflexivity.
  - intros Hr Hv. destruct (Qeq_bool _ 0); [constructor|].
    apply historyLoop_positive; [exact Hr | exact Hv | constructor].
Qed.

(** X9 on the 2nd of November: the labels run from June to November. *)
Lemma history_chart_witness :
  map DashboardView.date
      (DashboardView.historyData (fun _ => 1 # 2)
         (fun _ => {| JsDate.year := 2026; JsDate.month := 10;
                      JsDate.day := 2 |})
         (Dashboard.summary [Samples.lot "AAPL" 2 10 15 0]))
  = ["6月"; "7月"; "8月"; "9月"; "10月"; "11月"]
  /\ Forall (fun p => 0 < DashboardView.value p)
         (DashboardView.historyData (fun _ => 1 # 2)
            (fun _ => {| JsDate.year := 2026; JsDate.month := 10;
                         JsDate.day := 2 |})
            (Dashboard.summary [Samples.lot "AAPL" 2 10 15 0])).
Proof.
  destruct (history_chart (fun _ => 1 # 2)
              (fun _ => {| JsDate.year := 2026; JsDate.month := 10;
                           JsDate.day := 2 |})
              (Dashboard.summary [Samples.lot "AAPL" 2 10 15 0]))
    as (_ & Hsix & Hpos).
  split.
  - destruct (Hsix ltac:(discriminate)) as (_ & _ & Hlabels).
    rewrite (Hlabels {| JsDate.year := 2026; JsDate.month := 10;
                        JsDate.day := 2 |}
               (fun _ => eq_refl) ltac:(discriminate)).
    reflexivity.
  - apply Hpos; [|reflexivity].
    intros _. split; [discriminate | reflexivity].
Defined.

(** X10.  Loading the news for a portfolio with assets always ends with
    the spinner off, the old news replaced by the result (nothing when the
    call failed), and exactly one of the two other blocks of the news
    section on screen: the list or the no-news note. *)
Theorem news_panel_after_load :
  forall assets call st,
    assets <> [] ->
    let st' := DashboardView.getNews assets call st in
    DashboardView.news st' =
      GeminiService.fetchStockNews (map ticker assets) call
    /\ (call = Completion.Throw -> DashboardView.news st' = [])
    /\ DashboardView.showsSpinner st' = false
    /\ DashboardView.showsList st' =
       negb (DashboardView.showsNoNews assets st').
Proof.
  intros assets call st Ha st'.
  destruct assets as [|a rest]; [now elim Ha|].
  unfold st', DashboardView.getNews. cbn [length Nat.ltb Nat.leb].
  cbn [DashboardView.news DashboardView.showsSpinner
       DashboardView.loadingNews].
  split; [reflexivity|]. split; [now intros ->|]. split; [reflexivity|].
  unfold DashboardView.showsList, DashboardView.showsNoNews.
  cbn [DashboardView.news DashboardView.loadingNews negb andb].
  destruct (GeminiService.fetchStockNews _ call); reflexivity.
Qed.

Lemma news_panel_after_load_witness :
  DashboardView.showsList
    (DashboardView.getNews [Samples.aaa]
       (Samples.answer "Rates :: Cut by 25bp")
       {| DashboardView.news := []; DashboardView.loadingNews := false |})
  = true.
Proof.
  destruct (news_panel_after_load [Samples.aaa]
              (Samples.answer "Rates :: Cut by 25bp")
              {| DashboardView.news := []; DashboardView.loadingNews := false |}
              ltac:(discriminate)) as (_ & _ & _ & H).
  rewrite H. reflexivity.
Defined.

(** ** Chat turns against any stream *)

Section AnyStream.
Import SidebarChat.

(** The loop over chunks of any kind, with or without text. *)
Lemma fold_onChunk_any chunks :
  forall acc base m inp ld,
    fold_left onChunk chunks
      (acc, {| messages := base ++ [m]; input := inp; isLoading := ld |}) =
    ((acc ++ ChatStream.joinChunks chunks)%string,
     {| messages :=
          base ++ [match chunks with
                   | [] => m
                   | _ => ChatStream.reply
                            (acc ++ ChatStream.joinChunks chunks)%string
                   end];
        input := inp; isLoading := ld |}).
Proof.
  induction chunks as [|c rest IH]; intros acc base m inp ld.
  - simpl. now rewrite append_nil_r.
  - cbn [fold_left]. unfold onChunk at 2.
    cbn [fst snd messages input isLoading].
    rewrite setLast_snoc, IH. cbn [ChatStream.joinChunks].
    rewrite append_assoc.
    destruct rest; [|reflexivity].
    cbn [ChatStream.joinChunks]. now rewrite !append_nil_r.
Qed.

(** The history after a send that passed the guard. *)
Lemma handleSend_messages s st :
  canSend st = true ->
  messages (handleSend s st) =
  (messages st ++ [userMessage st])
    ++ [match chunks s with
        | [] => placeholder
        | _ => ChatStream.reply (ChatStream.joinChunks (chunks s))
        end]
    ++ (if fails s then [errorMessage] else []).
Proof.
  intros Hs. unfold handleSend. rewrite Hs, beginTurn_eq, fold_onChunk_any.
  unfold endTurn. cbn [snd messages].
  destruct (fails s).
  - now rewrite <- app_assoc.
  - now rewrite app_nil_r.
Qed.

End AnyStream.

(** The guard lets a send through exactly when no turn is in flight and
    the input holds something other than white space. *)
Lemma canSend_spec st :
  SidebarChat.canSend st =
  negb (SidebarChat.isLoading st)
  && negb (NewsWire.allSpace (SidebarChat.input st)).
Proof.
  unfold SidebarChat.canSend. rewrite trim_blank.
  destruct (NewsWire.allSpace (SidebarChat.input st)),
           (SidebarChat.isLoading st); reflexivity.
Qed.

(** X11.  The chat history is append-only: whatever the stream does
    (chunks with or without text, normal end or failure), a send made
    while no turn is in flight and with an input that is not blank keeps
    every earlier message in place and adds two messages, the user's
    first, or three when the stream failed; a send made while a turn is
    in flight, or with an input of white space only, changes nothing at
    all. *)
Theorem chat_history_append_only :
  forall s st,
    (SidebarChat.isLoading st = true -> SidebarChat.handleSend s st = st)
    /\ (NewsWire.allSpace (SidebarChat.input st) = true ->
        SidebarChat.handleSend s st = st)
    /\ (SidebarChat.isLoading st = false ->
        NewsWire.allSpace (SidebarChat.input st) = false ->
        exists added,
          SidebarChat.messages (SidebarChat.handleSend s st) =
          SidebarChat.messages st ++ added
          /\ length added =
             (if SidebarChat.fails s then 3 else 2)%nat
          /\ nth_error added 0 =
             Some {| SidebarChat.role := SidebarChat.user;
                     SidebarChat.text := SidebarChat.input st;
                     SidebarChat.isThinking := None |}).
Proof.
  intros s st. split; [|split].
  - intros H. unfold SidebarChat.handleSend.
    now rewrite canSend_spec, H.
  - intros H. unfold SidebarChat.handleSend.
    now rewrite canSend_spec, H, andb_false_r.
  - intros Hl Hi.
    assert (H : SidebarChat.canSend st = true)
      by now rewrite canSend_spec, Hl, Hi.
    rewrite (handleSend_messages s st H).
    rewrite <- app_assoc. eexists. split; [reflexivity|].
    split; [|reflexivity].
    destruct (SidebarChat.fails s); reflexivity.
Qed.

(** X11 on a send that goes through against a failing stream (three
    messages added to the one there was), on a send during a turn in
    flight and on a blank input. *)
Lemma chat_history_append_only_witness :
  (exists added,
      SidebarChat.messages
        (SidebarChat.handleSend
           {| SidebarChat.chunks := [Some "Hi"]; SidebarChat.fails := true |}
           Samples.asking)
      = SidebarChat.messages Samples.asking ++ added
      /\ length added = 3%nat)
  /\ SidebarChat.handleSend (SidebarChat.textStream ["Hel"; "lo"])
       Samples.busy = Samples.busy
  /\ SidebarChat.handleSend (SidebarChat.textStream ["Hel"; "lo"])
       {| SidebarChat.messages := SidebarChat.messages Samples.asking;
          SidebarChat.input := "   ";
          SidebarChat.isLoading := false |}
     = {| SidebarChat.messages := SidebarChat.messages Samples.asking;
          SidebarChat.input := "   ";
          SidebarChat.isLoading := false |}.
Proof.
  split; [|split].
  - destruct (proj2 (proj2 (chat_history_append_only
                {| SidebarChat.chunks := [Some "Hi"];
                   SidebarChat.fails := true |} Samples.asking))
                eq_refl eq_refl) as (added & Hm & Hl & _).
    exists added. split; [exact Hm | exact Hl].
  - exact (proj1 (chat_history_append_only
                    (SidebarChat.textStream ["Hel"; "lo"]) Samples.busy)
                 eq_refl).
  - exact (proj1 (proj2 (chat_history_append_only
                    (SidebarChat.textStream ["Hel"; "lo"])
                    {| SidebarChat.messages :=
                         SidebarChat.messages Samples.asking;
                       SidebarChat.input := "   ";
                       SidebarChat.isLoading := false |}))
                 eq_refl).
Defined.

(** X12.  Against a stream that delivers at least one chunk, a send ends
    with one reply bubble whose text is the chunks in arrival order (a
    chunk without text counting as the word "undefined") and whose
    thinking flag is cleared, followed by the error message when the
    stream failed afterwards; the turn leaves no thinking bubble behind,
    the input is empty and the session idle. *)
Theorem chat_turn_with_chunks :
  forall s st,
    SidebarChat.canSend st = true ->
    SidebarChat.chunks s <> [] ->
    let st' := SidebarChat.handleSend s st in
    SidebarChat.messages st' =
      (SidebarChat.messages st ++ [SidebarChat.userMessage st])
        ++ [ChatStream.reply (ChatStream.joinChunks (SidebarChat.chunks s))]
        ++ (if SidebarChat.fails s then [SidebarChat.errorMessage] else [])
    /\ existsb SidebarChat.showsThinking (SidebarChat.messages st') =
       existsb SidebarChat.showsThinking (SidebarChat.messages st)
    /\ SidebarChat.input st' = EmptyString
    /\ SidebarChat.isLoading st' = false.
Proof.
  intros s st Hs Hc st'.
  assert (Hm : SidebarChat.messages st' =
      (SidebarChat.messages st ++ [SidebarChat.userMessage st])
        ++ [ChatStream.reply (ChatStream.joinChunks (SidebarChat.chunks s))]
        ++ (if SidebarChat.fails s then [SidebarChat.errorMessage] else [])).
  { unfold st'. rewrite (handleSend_messages s st Hs).
    destruct (SidebarChat.chunks s); [now elim Hc | reflexivity]. }
  split; [exact Hm|]. split.
  - rewrite Hm, !existsb_app. cbn [existsb].
    destruct (SidebarChat.fails s); cbn;
      now rewrite ?orb_false_r.
  - unfold st', SidebarChat.handleSend. rewrite Hs.
    rewrite beginTurn_eq, fold_onChunk_any. split; reflexivity.
Qed.

Lemma chat_turn_with_chunks_witness :
  SidebarChat.messages
    (SidebarChat.handleSend
       {| SidebarChat.chunks := [Some "Hi"; None]; SidebarChat.fails := true |}
       Samples.asking)
  = (SidebarChat.messages Samples.asking
       ++ [SidebarChat.userMessage Samples.asking])
      ++ [ChatStream.reply "Hiundefined"; SidebarChat.errorMessage].
Proof.
  exact (proj1 (chat_turn_with_chunks
           {| SidebarChat.chunks := [Some "Hi"; None];
              SidebarChat.fails := true |}
           Samples.asking eq_refl ltac:(discriminate))).
Defined.

(** ** Splitting, trimming and the news format *)

Section SplitJoin.

Lemma rev_append_app p :
  forall a b, JsString.rev_append (JsString.rev_append p a) b =
              JsString.rev_append a (p ++ b)%string.
Proof.
  induction p as [|c p IH]; intros a b; simpl; [reflexivity|].
  now rewrite IH.
Qed.

Lemma startsWith_self sep rest : startsWith sep (sep ++ rest) = true.
Proof.
  induction sep as [|c sep IH]; simpl; [reflexivity|].
  now rewrite Ascii.eqb_refl, IH.
Qed.

Lemma splitFrom_skip sep :
  forall k cur rest,
    splitFrom sep (String.length k) cur (k ++ rest) = splitFrom sep 0 cur rest.
Proof.
  induction k as [|c k IH]; intros cur rest; [reflexivity|].
  simpl. apply IH.
Qed.

(** A piece without the first character of the separator is passed over
    as a whole. *)
Lemma splitFrom_piece x sep' :
  forall p cur rest,
    NewsWire.hasChar x p = false ->
    splitFrom (String x sep') 0 cur (p ++ rest) =
    splitFrom (String x sep') 0 (JsString.rev_append p cur) rest.
Proof.
  induction p as [|c p IH]; intros cur rest H; [reflexivity|].
  simpl in H. apply orb_false_iff in H as [Hc Hp].
  change (String c p ++ rest)%string with (String c (p ++ rest)).
  cbn [splitFrom startsWith]. rewrite Ascii.eqb_sym, Hc. cbn [andb].
  now rewrite IH.
Qed.

Lemma splitFrom_at_separator x sep' cur rest :
  splitFrom (String x sep') 0 cur (String x sep' ++ rest) =
  JsString.rev_append cur EmptyString :: splitFrom (String x sep') 0 EmptyString rest.
Proof.
  change (String x sep' ++ rest)%string with (String x (sep' ++ rest)).
  cbn [splitFrom].
  change (String x (sep' ++ rest)) with (String x sep' ++ rest)%string.
  rewrite startsWith_self. f_equal.
  replace (String.length (String x sep') - 1)%nat with (String.length sep')
    by (simpl; lia).
  apply splitFrom_skip.
Qed.

(** [split] undoes [join] when no piece holds the first character of the
    separator. *)
Lemma split_join x sep' :
  forall pieces,
    pieces <> [] ->
    Forall (fun p => NewsWire.hasChar x p = false) pieces ->
    split (String x sep') (join (String x sep') pieces) = pieces.
Proof.
  unfold split.
  induction pieces as [|p rest IH]; intros Hne Hall; [now elim Hne|].
  inversion Hall as [|? ? Hp Hrest]; subst.
  destruct rest as [|q rest].
  - cbn [join]. rewrite <- (append_nil_r p) at 1.
    rewrite (splitFrom_piece x sep' p EmptyString EmptyString Hp).
    cbn [splitFrom]. now rewrite rev_append_app, append_nil_r.
  - change (join (String x sep') (p :: q :: rest))
      with (p ++ String x sep' ++ join (String x sep') (q :: rest))%string.
    rewrite (splitFrom_piece x sep' p EmptyString _ Hp).
    rewrite splitFrom_at_separator, rev_append_app, append_nil_r.
    f_equal. apply IH; [discriminate | exact Hrest].
Qed.

Lemma hasChar_app c a b :
  NewsWire.hasChar c (a ++ b) = NewsWire.hasChar c a || NewsWire.hasChar c b.
Proof.
  induction a as [|d a IH]; simpl; [reflexivity|].
  now rewrite IH, orb_assoc.
Qed.

Lemma hasChar_allSpace c w :
  isSpace c = false -> NewsWire.allSpace w = true ->
  NewsWire.hasChar c w = false.
Proof.
  intros Hc. induction w as [|d w IH]; simpl; [reflexivity|].
  intros H. apply andb_true_iff in H as [Hd Hw].
  rewrite (IH Hw), orb_false_r.
  destruct (Ascii.eqb_spec d c) as [->|]; [congruence | reflexivity].
Qed.

End SplitJoin.

Section Trim.

Lemma trimStart_allSpace w x :
  NewsWire.allSpace w = true -> trimStart (w ++ x) = trimStart x.
Proof.
  induction w as [|d w IH]; simpl; [reflexivity|].
  intros H. apply andb_true_iff in H as [Hd Hw].
  now rewrite Hd, IH.
Qed.

Lemma trimStart_length s :
  (String.length (trimStart s) <= String.length s)%nat.
Proof.
  induction s as [|c s IH]; simpl; [lia|].
  destruct (isSpace c); simpl; lia.
Qed.

(** A text that [trimStart] leaves alone keeps its start under
    concatenation. *)
Lemma trimStart_fixed x rest :
  x <> EmptyString -> trimStart x = x -> trimStart (x ++ rest) = (x ++ rest)%string.
Proof.
  destruct x as [|c x]; [now intros H; elim H|]. intros _ H.
  simpl in *. destruct (isSpace c); [|reflexivity].
  pose proof (trimStart_length x) as L. rewrite H in L. simpl in L. lia.
Qed.

Lemma trimEnd_allSpace_empty w :
  NewsWire.allSpace w = true -> trimEnd w = EmptyString.
Proof.
  induction w as [|d w IH]; simpl; [reflexivity|].
  intros H. apply andb_true_iff in H as [Hd Hw].
  now rewrite (IH Hw), Hd.
Qed.

Lemma trimEnd_app_blank x w :
  trimEnd w = EmptyString -> trimEnd (x ++ w) = trimEnd x.
Proof.
  intros Hw. induction x as [|c x IH]; simpl; [exact Hw|].
  now rewrite IH.
Qed.

Lemma trimEnd_app_kept x s :
  trimEnd s <> EmptyString -> trimEnd (x ++ s) = (x ++ trimEnd s)%string.
Proof.
  intros Hs. induction x as [|c x IH]; simpl; [reflexivity|].
  rewrite IH. destruct (x ++ trimEnd s)%string eqn:E; [|reflexivity].
  destruct x; simpl in E; [now elim Hs | discriminate].
Qed.

End Trim.

Section NewsFormat.
Import GeminiService NewsWire.

Lemma trim_storyText st :
  wellPadded (fst st) -> wellPadded (snd st) ->
  trim (storyText st) = storyBody st.
Proof.
  destruct st as [h s]. cbn [fst snd].
  intros (Hlh & Hth & Hh0 & Hh1 & Hh2 & _) (Hls & Hts & Hs0 & Hs1 & Hs2 & _).
  unfold trim, storyText, storyBody, render. cbn [fst snd].
  rewrite !append_assoc.
  rewrite (trimStart_allSpace _ _ Hlh).
  rewrite (trimStart_fixed _ _ Hh0 Hh1).
  assert (Hend : trimEnd (content s ++ trail s) = content s).
  { rewrite trimEnd_app_blank by now apply trimEnd_allSpace_empty.
    exact Hs2. }
  replace (content h ++ trail h ++ "::" ++ lead s ++ content s ++ trail s)%string
    with ((content h ++ trail h ++ "::" ++ lead s)
            ++ (content s ++ trail s))%string
    by now rewrite !append_assoc.
  rewrite trimEnd_app_kept by (rewrite Hend; exact Hs0).
  rewrite Hend. now rewrite !append_assoc.
Qed.

Lemma storyText_no_bar st :
  wellPadded (fst st) -> wellPadded (snd st) ->
  hasChar "|" (storyText st) = false.
Proof.
  destruct st as [h s]. cbn [fst snd].
  intros (Hlh & Hth & _ & _ & _ & Hhb & _) (Hls & Hts & _ & _ & _ & Hsb & _).
  unfold storyText, render. cbn [fst snd].
  rewrite !hasChar_app, Hhb, Hsb.
  rewrite (hasChar_allSpace "|" (lead h)) by (reflexivity || assumption).
  rewrite (hasChar_allSpace "|" (trail h)) by (reflexivity || assumption).
  rewrite (hasChar_allSpace "|" (lead s)) by (reflexivity || assumption).
  rewrite (hasChar_allSpace "|" (trail s)) by (reflexivity || assumption).
  reflexivity.
Qed.

Lemma storyBody_parts st :
  wellPadded (fst st) -> wellPadded (snd st) ->
  split "::" (storyBody st) =
  [(content (fst st) ++ trail (fst st))%string;
   (lead (snd st) ++ content (snd st))%string].
Proof.
  destruct st as [h s]. cbn [fst snd].
  intros (_ & Hth & _ & _ & _ & _ & Hhc) (Hls & _ & _ & _ & _ & _ & Hsc).
  unfold storyBody. cbn [fst snd].
  apply (split_join ":" ":" [(content h ++ trail h)%string;
                             (lead s ++ content s)%string]);
    [discriminate|].
  repeat constructor; rewrite hasChar_app.
  - now rewrite Hhc, (hasChar_allSpace ":") by (reflexivity || assumption).
  - now rewrite Hsc, (hasChar_allSpace ":") by (reflexivity || assumption).
Qed.

Lemma storyBody_nonempty st :
  wellPadded (fst st) -> storyBody st <> EmptyString.
Proof.
  destruct st as [h s]. cbn [fst]. intros (_ & _ & Hh0 & _).
  unfold storyBody. cbn [fst snd].
  destruct (content h); [now elim Hh0 | discriminate].
Qed.

Lemma toNewsItem_story gc st index :
  wellPadded (fst st) -> wellPadded (snd st) ->
  headline (toNewsItem gc (storyBody st) index) = content (fst st)
  /\ summary (toNewsItem gc (storyBody st) index) = content (snd st).
Proof.
  intros Hh Hs. unfold toNewsItem.
  rewrite (storyBody_parts st Hh Hs). cbn [nth_error option_map headline summary].
  destruct st as [h s]. cbn [fst snd] in *.
  destruct Hh as (_ & Hth & Hh0 & Hh1 & Hh2 & _).
  destruct Hs as (Hls & _ & Hs0 & Hs1 & Hs2 & _).
  assert (Eh : trim (content h ++ trail h) = content h).
  { unfold trim. rewrite (trimStart_fixed _ _ Hh0 Hh1).
    rewrite trimEnd_app_blank by now apply trimEnd_allSpace_empty.
    exact Hh2. }
  assert (Es : trim (lead s ++ content s) = content s).
  { unfold trim. rewrite (trimStart_allSpace _ _ Hls), Hs1. exact Hs2. }
  rewrite Eh, Es. unfold orElse.
  destruct (content h); [now elim Hh0|].
  destruct (content s); [now elim Hs0|]. split; reflexivity.
Qed.

Lemma rawItems_wire stories :
  stories <> [] ->
  Forall (fun st => wellPadded (fst st) /\ wellPadded (snd st)) stories ->
  rawItems (wire stories) = map storyBody stories.
Proof.
  intros Hne Hall. unfold rawItems, wire.
  rewrite (split_join "|" "||").
  - induction Hall as [|st rest [Hh Hs] _ IH]; [reflexivity|].
    cbn [map filter]. rewrite (trim_storyText st Hh Hs).
    rewrite isEmpty_length.
    destruct (storyBody st) eqn:E;
      [now elim (storyBody_nonempty st Hh)|].
    cbn [isEmpty negb]. f_equal.
    destruct rest; [reflexivity | apply IH; discriminate].
  - destruct stories; [now elim Hne | discriminate].
  - apply Forall_map. eapply Forall_impl; [|exact Hall].
    intros st [Hh Hs]. now apply storyText_no_bar.
Qed.

Lemma mapFrom_stories gc :
  forall stories index,
    Forall (fun st => wellPadded (fst st) /\ wellPadded (snd st)) stories ->
    map (fun n => (headline n, summary n))
        (mapFrom gc index (map storyBody stories)) =
    map (fun st => (content (fst st), content (snd st))) stories.
Proof.
  induction stories as [|st rest IH]; intros index Hall; [reflexivity|].
  inversion Hall as [|? ? [Hh Hs] Hrest]; subst.
  cbn [map mapFrom].
  destruct (toNewsItem_story gc st index Hh Hs) as [-> ->].
  f_equal. now apply IH.
Qed.

Lemma orElse_nonempty a b : b <> EmptyString -> orElse a b <> EmptyString.
Proof.
  intros Hb. unfold orElse. destruct a as [[|c s]|]; simpl; try exact Hb.
  discriminate.
Qed.

Lemma rawItems_nonempty txt :
  Forall (fun raw => raw <> EmptyString) (rawItems txt).
Proof.
  unfold rawItems. apply Forall_forall. intros raw H.
  apply filter_In in H as [_ H]. destruct raw; [discriminate H | discriminate].
Qed.

Lemma mapFrom_not_blank gc :
  forall l index,
    Forall (fun raw => raw <> EmptyString) l ->
    Forall (fun n => headline n <> EmptyString /\ summary n <> EmptyString
                     /\ source n <> EmptyString)
           (mapFrom gc index l).
Proof.
  induction l as [|raw l IH]; intros index H; [constructor|].
  inversion H as [|? ? Hraw Hl]; subst.
  cbn [mapFrom]. constructor; [|now apply IH].
  unfold toNewsItem. cbn [headline summary source].
  repeat split; apply orElse_nonempty; (exact Hraw || discriminate).
Qed.

End NewsFormat.

(** X13.  No news item is ever blank: whatever the model answers (and
    whatever the grounding metadata holds), every item returned has a
    non-empty headline, a non-empty summary and a non-empty source
    label. *)
Theorem news_items_never_blank :
  forall tickers call,
    Forall (fun n => GeminiService.headline n <> EmptyString
                     /\ GeminiService.summary n <> EmptyString
                     /\ GeminiService.source n <> EmptyString)
           (GeminiService.fetchStockNews tickers call).
Proof.
  intros tickers call. unfold GeminiService.fetchStockNews.
  destruct (length tickers =? 0)%nat; [constructor|].
  destruct call as [response|]; [|constructor].
  destruct (parseNews_cases response) as (Hsome & Hnone & Hempty).
  destruct (GeminiService.rawItems (GeminiService.textOf response))
    as [|raw rest] eqn:Er.
  - destruct (GeminiService.textOf response) as [|c r] eqn:Et.
    + rewrite (Hempty eq_refl). constructor.
    + rewrite (Hnone eq_refl) by discriminate.
      constructor; [|constructor].
      cbn. repeat split; discriminate.
  - rewrite Hsome by discriminate.
    apply mapFrom_not_blank. rewrite <- Er. apply rawItems_nonempty.
Qed.

(** X14.  Decoding the format of the prompt: for stories written as
    HEADLINE :: SUMMARY and separated by "|||", with any white space
    around the headlines and summaries, [fetchStockNews] returns one item
    per story, in order, with exactly that headline and that summary,
    provided they are not empty, not padded and free of '|' and ':'. *)
Theorem news_decodes_wire_format :
  forall tickers gc stories,
    tickers <> [] ->
    stories <> [] ->
    Forall (fun st => NewsWire.wellPadded (fst st)
                      /\ NewsWire.wellPadded (snd st)) stories ->
    map (fun n => (GeminiService.headline n, GeminiService.summary n))
        (GeminiService.fetchStockNews tickers
           (Completion.Normal
              {| GeminiService.text := Some (NewsWire.wire stories);
                 GeminiService.groundingChunks := gc |}))
    = map (fun st => (NewsWire.content (fst st), NewsWire.content (snd st)))
          stories.
Proof.
  intros tickers gc stories Htk Hne Hall.
  unfold GeminiService.fetchStockNews.
  destruct tickers; [now elim Htk|]. cbn [length Nat.eqb].
  destruct (parseNews_cases
              {| GeminiService.text := Some (NewsWire.wire stories);
                 GeminiService.groundingChunks := gc |}) as (Hsome & _ & _).
  cbn [GeminiService.textOf GeminiService.text
       GeminiService.groundingChunks] in Hsome.
  rewrite (rawItems_wire stories Hne Hall) in Hsome.
  rewrite Hsome by (destruct stories; [now elim Hne | discriminate]).
  now apply mapFrom_stories.
Qed.

Lemma news_decodes_wire_format_witness :
  map (fun n => (GeminiService.headline n, GeminiService.summary n))
      (GeminiService.fetchStockNews ["ITUB"]
         (Samples.answer "Rates :: Cut by 25bp ||| Itau :: Record profit"))
  = [("Rates", "Cut by 25bp"); ("Itau", "Record profit")].
Proof.
  apply (news_decodes_wire_format ["ITUB"] None
           [ ({| NewsWire.lead := ""; NewsWire.content := "Rates";
                 NewsWire.trail := " " |},
              {| NewsWire.lead := " "; NewsWire.content := "Cut by 25bp";
                 NewsWire.trail := " " |});
             ({| NewsWire.lead := " "; NewsWire.content := "Itau";
                 NewsWire.trail := " " |},
              {| NewsWire.lead := " "; NewsWire.content := "Record profit";
                 NewsWire.trail := "" |}) ]);
    [discriminate | discriminate |].
  repeat constructor; discriminate.
Defined.

(** ** Cleaning the market answer *)

Section Fences.
Import MarketFeed.

Lemma removeFrom_skip pat :
  forall k rest,
    removeFrom pat (String.length k) (k ++ rest) = removeFrom pat 0 rest.
Proof.
  induction k as [|c k IH]; intros rest; [reflexivity|].
  simpl. apply IH.
Qed.

Lemma removeFrom_at_pattern x pat' rest :
  removeFrom (String x pat') 0 (String x pat' ++ rest) =
  removeFrom (String x pat') 0 rest.
Proof.
  change (String x pat' ++ rest)%string with (String x (pat' ++ rest)).
  cbn [removeFrom].
  change (String x (pat' ++ rest)) with (String x pat' ++ rest)%string.
  rewrite startsWith_self.
  replace (String.length (String x pat') - 1)%nat with (String.length pat')
    by (simpl; lia).
  apply removeFrom_skip.
Qed.

Lemma removeFrom_piece x pat' :
  forall p rest,
    NewsWire.hasChar x p = false ->
    removeFrom (String x pat') 0 (p ++ rest) =
    (p ++ removeFrom (String x pat') 0 rest)%string.
Proof.
  induction p as [|c p IH]; intros rest H; [reflexivity|].
  simpl in H. apply orb_false_iff in H as [Hc Hp].
  change (String c p ++ rest)%string with (String c (p ++ rest)).
  cbn [removeFrom startsWith]. rewrite Ascii.eqb_sym, Hc. cbn [andb].
  now rewrite IH.
Qed.

Lemma removeAll_absent pat :
  forall s, includes pat s = false -> removeAll pat s = s.
Proof.
  unfold removeAll.
  induction s as [|c r IH]; intros H; [reflexivity|].
  cbn [includes] in H. apply orb_false_iff in H as [Hs Hr].
  cbn [removeFrom]. rewrite Hs. now rewrite IH.
Qed.

Lemma startsWith_prefix p q :
  forall s, startsWith (p ++ q) s = true -> startsWith p s = true.
Proof.
  induction p as [|a p IH]; intros s H; [reflexivity|].
  destruct s as [|b s]; [discriminate H|].
  simpl in *. apply andb_true_iff in H as [H1 H2].
  now rewrite H1, (IH s H2).
Qed.

Lemma includes_prefix p q :
  forall s, includes (p ++ q) s = true -> includes p s = true.
Proof.
  induction s as [|c s IH]; intros H; cbn [includes] in *.
  - rewrite orb_false_r in *. now apply (startsWith_prefix p q).
  - apply orb_true_iff in H as [H|H].
    + now rewrite (startsWith_prefix p q _ H).
    + rewrite (IH H). apply orb_true_r.
Qed.

(** The two cases of one step of the removal of fences. *)
Lemma removeAll_fence_step c r :
  (startsWith fence (String c r) = true ->
   exists r', r = String "`" (String "`" r')
              /\ c = "`"%char
              /\ removeAll fence (String c r) = removeAll fence r')
  /\ (startsWith fence (String c r) = false ->
      removeAll fence (String c r) = String c (removeAll fence r)).
Proof.
  unfold removeAll. split; intros H.
  - cbn [removeFrom]. rewrite H.
    unfold fence in H. cbn [startsWith] in H.
    destruct r as [|d [|e r']]; try (rewrite ?andb_false_r in H; discriminate H).
    apply andb_true_iff in H as [H1 H].
    apply andb_true_iff in H as [H2 H].
    apply andb_true_iff in H as [H3 _].
    apply Ascii.eqb_eq in H1, H2, H3. subst c d e.
    exists r'. repeat split.
  - cbn [removeFrom]. now rewrite H.
Qed.

(** After the removal no fence is left, and the result starts with one or
    two back quotes only if the text did. *)
Lemma removeAll_fence_clean :
  forall n s,
    (String.length s <= n)%nat ->
    includes fence (removeAll fence s) = false
    /\ (startsWith "`" (removeAll fence s) = true -> startsWith "`" s = true)
    /\ (startsWith "``" (removeAll fence s) = true ->
        startsWith "``" s = true).
Proof.
  induction n as [|n IH]; intros s Hn.
  - destruct s; [|simpl in Hn; lia]. repeat split; discriminate.
  - destruct s as [|c r]; [repeat split; discriminate|].
    destruct (removeAll_fence_step c r) as [Hyes Hno].
    destruct (startsWith fence (String c r)) eqn:E.
    + destruct (Hyes eq_refl) as (r' & -> & -> & ->).
      destruct (IH r') as (H1 & _ & _); [simpl in Hn; lia|].
      split; [exact H1|]. split; reflexivity.
    + rewrite (Hno eq_refl).
      destruct (IH r) as (H1 & H2 & H3); [simpl in Hn; lia|].
      split; [|split].
      * cbn [includes]. rewrite H1, orb_false_r.
        destruct (startsWith fence (String c (removeAll fence r))) eqn:F;
          [|reflexivity].
        unfold fence in F. cbn [startsWith] in F.
        apply andb_true_iff in F as [Fc F].
        assert (F2 : startsWith "``" (removeAll fence r) = true) by exact F.
        specialize (H3 F2).
        unfold fence in E. cbn [startsWith] in E.
        rewrite Fc in E. cbn [andb] in E.
        cbn [startsWith] in H3. rewrite H3 in E. discriminate E.
      * cbn [startsWith]. intros F. exact F.
      * cbn [startsWith]. intros F.
        apply andb_true_iff in F as [Fc F]. rewrite Fc. cbn [andb].
        apply H2. exact F.
Qed.

Lemma cleanText_plain txt :
  includes fence txt = false -> cleanText txt = trim txt.
Proof.
  intros H. unfold cleanText.
  assert (Hj : includes fenceJson txt = false).
  { destruct (includes fenceJson txt) eqn:E; [|reflexivity].
    apply (includes_prefix fence "json") in E. congruence. }
  now rewrite (removeAll_absent fenceJson txt Hj), (removeAll_absent fence txt H).
Qed.

Lemma cleanText_fenced body :
  NewsWire.hasChar "`" body = false ->
  cleanText (fenceJson ++ body ++ fence) = trim body.
Proof.
  intros H. unfold cleanText, removeAll, fenceJson, fence.
  rewrite removeFrom_at_pattern.
  rewrite (removeFrom_piece "`" "``json" body _ H).
  change (removeFrom "```json" 0 "```") with "```".
  rewrite (removeFrom_piece "`" "``" body _ H).
  change (removeFrom "```" 0 "```") with "".
  now rewrite append_nil_r.
Qed.

Lemma hasChar_includes_fence s :
  NewsWire.hasChar "`" s = false -> includes fence s = false.
Proof.
  induction s as [|c s IH]; intros H; [reflexivity|].
  simpl in H. apply orb_false_iff in H as [Hc Hs].
  cbn [includes]. rewrite (IH Hs), orb_false_r.
  unfold fence. cbn [startsWith]. now rewrite Ascii.eqb_sym, Hc.
Qed.

End Fences.

(** X15.  The text handed to [JSON.parse] by [updateMarketPrices] never
    holds a code fence: after the clean-up no three back quotes in a row
    are left, whatever the model wrote. *)
Theorem clean_text_has_no_fence :
  forall txt, includes MarketFeed.fence (MarketFeed.cleanText txt) = false.
Proof.
  intros txt. unfold MarketFeed.cleanText.
  apply includes_trim.
  apply (removeAll_fence_clean
           (String.length (MarketFeed.removeAll MarketFeed.fenceJson txt))).
  apply Nat.le_refl.
Qed.

(** X16.  A JSON answer wrapped in a json code fence is read exactly as
    the bare answer would be, and an answer without back quotes is only
    trimmed: the fence makes no difference to what [updateMarketPrices]
    returns. *)
Theorem fenced_answer_reads_as_bare :
  forall body gc gc' JSON_parse,
    NewsWire.hasChar "`" body = false ->
    MarketFeed.cleanText body = trim body
    /\ MarketFeed.updateMarketPrices
         (Completion.Normal
            {| GeminiService.text :=
                 Some (MarketFeed.fenceJson ++ body ++ MarketFeed.fence)%string;
               GeminiService.groundingChunks := gc |}) JSON_parse
       = MarketFeed.updateMarketPrices
           (Completion.Normal
              {| GeminiService.text := Some body;
                 GeminiService.groundingChunks := gc' |}) JSON_parse.
Proof.
  intros body gc gc' JSON_parse H.
  assert (Hb : MarketFeed.cleanText body = trim body)
    by (apply cleanText_plain; now apply hasChar_includes_fence).
  split; [exact Hb|].
  unfold MarketFeed.updateMarketPrices.
  cbn [GeminiService.textOf GeminiService.text].
  now rewrite (cleanText_fenced body H), Hb.
Qed.

Lemma fenced_answer_reads_as_bare_witness :
  MarketFeed.updateMarketPrices
    (Completion.Normal
       {| GeminiService.text :=
            Some (MarketFeed.fenceJson
                    ++ (Samples.newline ++ "{}" ++ Samples.newline)
                    ++ MarketFeed.fence)%string;
          GeminiService.groundingChunks := None |})
    Samples.parseEmptyObject
  = Some {| App.prices := None; App.usdJpy := None |}.
Proof.
  rewrite (proj2 (fenced_answer_reads_as_bare
                    (Samples.newline ++ "{}" ++ Samples.newline)
                    None None Samples.parseEmptyObject eq_refl)).
  reflexivity.
Defined.

(** X17.  When the market call fails, answers with nothing but white
    space and fences, or answers with text [JSON.parse] rejects, the
    refresh leaves the holdings and the exchange rate exactly as they
    were and switches the refreshing flag off. *)
Theorem failed_market_call_changes_nothing :
  forall clock call JSON_parse st,
    (call = Completion.Throw
     \/ exists response,
          call = Completion.Normal response
          /\ (MarketFeed.cleanText (GeminiService.textOf response)
                = EmptyString
              \/ JSON_parse
                   (MarketFeed.cleanText (GeminiService.textOf response))
                 = Completion.Throw)) ->
    App.handleRefreshMarketData clock
      (MarketFeed.updateMarketPrices call JSON_parse) st
    = {| App.assets := App.assets st;
         App.usdJpyRate := App.usdJpyRate st;
         App.isRefreshingMarket := false |}.
Proof.
  intros clock call JSON_parse st H.
  assert (E : MarketFeed.updateMarketPrices call JSON_parse = None).
  { unfold MarketFeed.updateMarketPrices.
    destruct H as [->|(response & -> & [H|H])]; [reflexivity| |].
    - now rewrite H.
    - rewrite H.
      now destruct (isEmpty (MarketFeed.cleanText
                               (GeminiService.textOf response))). }
  now rewrite E.
Qed.

Lemma failed_market_call_changes_nothing_witness :
  App.handleRefreshMarketData Samples.noon
    (MarketFeed.updateMarketPrices (Samples.answer "```json```")
       (fun _ => Completion.Throw))
    (Samples.portfolio [Samples.aaa])
  = {| App.assets := [Samples.aaa];
       App.usdJpyRate := 154.5;
       App.isRefreshingMarket := false |}.
Proof.
  apply (failed_market_call_changes_nothing Samples.noon
           (Samples.answer "```json```") (fun _ => Completion.Throw)
           (Samples.portfolio [Samples.aaa])).
  right. eexists. split; [reflexivity|]. left. reflexivity.
Defined.

(** ** The upload and the form *)

Section DataUrl.
Import AddAssetModal Completion.

Lemma hasChar_includes c s :
  NewsWire.hasChar c s = false -> includes (String c EmptyString) s = false.
Proof.
  induction s as [|d s IH]; intros H; [reflexivity|].
  simpl in H. apply orb_false_iff in H as [Hd Hs].
  cbn [includes]. rewrite (IH Hs), orb_false_r.
  cbn [startsWith]. now rewrite Ascii.eqb_sym, Hd.
Qed.

(** The state after the upload depends on the extraction call only
    through the one call the callback makes. *)
Lemma upload_call Number_toString parse file url st :
  upload Number_toString parse (Some file) (Normal tt) (Some url) st =
  upload Number_toString
    (fun _ _ => parse (nth_error (split "," url) 1) (type file))
    (Some file) (Normal tt) (Some url) st.
Proof. reflexivity. Qed.

End DataUrl.

(** X18.  The extraction call receives exactly the payload of the data
    URL: for a reader result made of a header, a comma and a payload
    (neither holding a comma) the call is made with the payload and the
    MIME type of the file; for a result without any comma it is made with
    [undefined]. *)
Theorem upload_sends_payload :
  forall Number_toString parse file st,
    (forall header payload,
        NewsWire.hasChar "," header = false ->
        NewsWire.hasChar "," payload = false ->
        AddAssetModal.upload Number_toString parse (Some file)
          (Completion.Normal tt) (Some (header ++ "," ++ payload)%string) st
        = AddAssetModal.upload Number_toString
            (fun _ _ => parse (Some payload) (AddAssetModal.type file))
            (Some file) (Completion.Normal tt)
            (Some (header ++ "," ++ payload)%string) st)
    /\ (forall url,
          NewsWire.hasChar "," url = false ->
          AddAssetModal.upload Number_toString parse (Some file)
            (Completion.Normal tt) (Some url) st
          = AddAssetModal.upload Number_toString
              (fun _ _ => parse None (AddAssetModal.type file))
              (Some file) (Completion.Normal tt) (Some url) st).
Proof.
  intros Number_toString parse file st. split.
  - intros header payload Hh Hp.
    rewrite upload_call.
    change (header ++ "," ++ payload)%string
      with (join "," [header; payload]).
    rewrite (split_join "," EmptyString [header; payload]);
      [reflexivity | discriminate | now repeat constructor].
  - intros url H.
    rewrite upload_call.
    now rewrite (split_not_included "," url (hasChar_includes "," url H)).
Qed.

Lemma upload_sends_payload_witness :
  AddAssetModal.upload AddAssetModal.integralToString
    (fun payload _ =>
       Completion.Normal
         (Some {| GeminiService.ticker := payload;
                  GeminiService.companyName := None;
                  GeminiService.quantity := None;
                  GeminiService.avgPrice := None |}))
    (Some Samples.png) (Completion.Normal tt)
    (Some ("data:image/png;base64" ++ "," ++ "iVBORw0KGgo=")%string)
    Samples.typed
  = AddAssetModal.upload AddAssetModal.integralToString
      (Samples.receipt
         {| GeminiService.ticker := Some "iVBORw0KGgo=";
            GeminiService.companyName := None;
            GeminiService.quantity := None;
            GeminiService.avgPrice := None |})
      (Some Samples.png) (Completion.Normal tt)
      (Some ("data:image/png;base64" ++ "," ++ "iVBORw0KGgo=")%string)
      Samples.typed.
Proof.
  exact (proj1 (upload_sends_payload AddAssetModal.integralToString
           (fun payload _ =>
              Completion.Normal
                (Some {| GeminiService.ticker := payload;
                         GeminiService.companyName := None;
                         GeminiService.quantity := None;
                         GeminiService.avgPrice := None |}))
           Samples.png Samples.typed)
           "data:image/png;base64" "iVBORw0KGgo=" eq_refl eq_refl).
Defined.

(** X19.  An upload that yields no data changes no field of the form:
    when the model answers without text, or with text that parses to
    [null], the ticker, quantity, price, attribution tag and tab stay as
    typed and the processing flag is cleared; without a picked file
    nothing happens at all. *)
Theorem upload_without_data_keeps_form :
  forall Number_toString JSON_parse response file url startRead st,
    (GeminiService.text response = None
     \/ GeminiService.text response = Some EmptyString
     \/ exists t, GeminiService.text response = Some t
                  /\ t <> EmptyString
                  /\ JSON_parse t = Completion.Normal None) ->
    AddAssetModal.upload Number_toString
      (fun _ _ =>
         GeminiService.parseTradeScreenshot
           (Completion.Normal response) JSON_parse)
      (Some file) (Completion.Normal tt) (Some url) st
    = {| AddAssetModal.activeTab := AddAssetModal.activeTab st;
         AddAssetModal.isProcessing := false;
         AddAssetModal.loadingStatus := AddAssetModal.statusAnalysing;
         AddAssetModal.ticker := AddAssetModal.ticker st;
         AddAssetModal.qty := AddAssetModal.qty st;
         AddAssetModal.price := AddAssetModal.price st;
         AddAssetModal.source := AddAssetModal.source st |}
    /\ AddAssetModal.upload Number_toString
         (fun _ _ =>
            GeminiService.parseTradeScreenshot
              (Completion.Normal response) JSON_parse)
         None startRead (Some url) st = st.
Proof.
  intros Number_toString JSON_parse response file url startRead st H.
  split; [|reflexivity].
  assert (E : GeminiService.parseTradeScreenshot
                (Completion.Normal response) JSON_parse
              = Completion.Normal None).
  { unfold GeminiService.parseTradeScreenshot.
    destruct H as [->|[->|(t & -> & Ht & Hp)]]; [reflexivity..|].
    destruct t; [now elim Ht | exact Hp]. }
  rewrite upload_started.
  unfold AddAssetModal.onloadend, AddAssetModal.bind, AddAssetModal.ret,
    AddAssetModal.await.
  rewrite E. reflexivity.
Qed.

Lemma upload_without_data_keeps_form_witness :
  AddAssetModal.qty
    (AddAssetModal.upload AddAssetModal.integralToString
       (fun _ _ =>
          GeminiService.parseTradeScreenshot
            (Completion.Normal
               {| GeminiService.text := None;
                  GeminiService.groundingChunks := None |})
            (fun _ => Completion.Throw))
       (Some Samples.png) (Completion.Normal tt) (Some Samples.dataUrl)
       Samples.typed)
  = "5".
Proof.
  rewrite (proj1 (upload_without_data_keeps_form
                    AddAssetModal.integralToString (fun _ => Completion.Throw)
                    {| GeminiService.text := None;
                       GeminiService.groundingChunks := None |}
                    Samples.png Samples.dataUrl (Completion.Normal tt)
                    Samples.typed (or_introl eq_refl))).
  reflexivity.
Defined.

(** X20.  Submitting the form always adds the asset, icon or no icon:
    whatever the icon call does (an image, nothing, a failure), the
    portfolio grows by exactly one record at its end, with the typed
    ticker in upper case, the parsed quantity and price, no icon when the
    call failed, and the processing flag is cleared; the mock current
    price lies within 5% of the average price for a price that is not
    negative. *)
Theorem submit_adds_asset :
  forall parseFloat Z_toString random now1 now2 iconCall form app,
    let result := AssetForm.handleSubmit parseFloat Z_toString random
                    now1 now2 iconCall form app in
    let asset := AssetForm.newAsset parseFloat Z_toString random now1 now2
                   (MarketFeed.generateStockIcon iconCall) form in
    App.assets (snd result) = App.assets app ++ [asset]
    /\ AddAssetModal.isProcessing (fst result) = false
    /\ ticker asset = toUpperCase (AddAssetModal.ticker form)
    /\ quantity asset = parseFloat (AddAssetModal.qty form)
    /\ avgPrice asset = parseFloat (AddAssetModal.price form)
    /\ (iconCall = Completion.Throw -> iconUrl asset = None)
    /\ (0 <= random -> random < 1 -> 0 <= avgPrice asset ->
        avgPrice asset * 0.95 <= currentPrice asset
        /\ currentPrice asset <= avgPrice asset * 1.05).
Proof.
  intros parseFloat Z_toString random now1 now2 iconCall form app
         result asset.
  split; [reflexivity|]. split; [reflexivity|]. split; [reflexivity|].
  split; [reflexivity|]. split; [reflexivity|].
  split; [now intros ->|].
  unfold asset. cbn [AssetForm.newAsset currentPrice avgPrice].
  intros H0 H1 Ha.
  rewrite !(Qmult_comm (parseFloat (AddAssetModal.price form))).
  split; apply Qmult_le_compat_r; try exact Ha; lra.
Qed.

Lemma submit_adds_asset_witness :
  let asset := AssetForm.newAsset (fun _ => 100) (fun _ => "1") (1 # 2)
                 1%Z 2%Z None Samples.typed in
  avgPrice asset * 0.95 <= currentPrice asset
  /\ currentPrice asset <= avgPrice asset * 1.05.
Proof.
  apply (submit_adds_asset (fun _ => 100) (fun _ => "1") (1 # 2) 1%Z 2%Z
           Completion.Throw Samples.typed (Samples.portfolio []));
    [discriminate | reflexivity | discriminate].
Defined.

(** ** What the views agree on *)

Section Agreement.
Import Dashboard.



End Agreement.




Section Sources.
Import GeminiService.

Lemma nth_error_mapFrom gc :
  forall l index i,
    nth_error (mapFrom gc index l) i =
    option_map (fun raw => toNewsItem gc raw (index + i)) (nth_error l i).
Proof.
  induction l as [|raw l IH]; intros index i.
  - destruct i; reflexivity.
  - destruct i as [|i]; simpl.
    + now rewrite Nat.add_0_r.
    + rewrite IH. now rewrite Nat.add_succ_r.
Qed.

End Sources.

(** X23.  Sources are handed out in turn: when the answer has a segment
    that is not blank, item [i] carries the link and the title of
    grounding chunk [i] modulo the number of chunks (and the label
    "Google Search" when that chunk has no title); with no grounding
    chunks every item, the fallback item included, is labelled
    "Google Search" and has no link. *)
Theorem news_sources_cycle :
  forall tickers response,
    let gc := match GeminiService.groundingChunks response with
              | Some l => l
              | None => []
              end in
    let news := GeminiService.fetchStockNews tickers
                  (Completion.Normal response) in
    (NewsWire.nonBlankSegments (GeminiService.textOf response) <> [] ->
     forall i item,
       nth_error news i = Some item ->
       gc <> [] ->
       exists chunk,
         nth_error gc (i mod length gc) = Some chunk
         /\ GeminiService.url item =
            match GeminiService.web chunk with
            | Some w => GeminiService.uri w
            | None => None
            end
         /\ GeminiService.source item =
            match GeminiService.web chunk with
            | Some w =>
                match GeminiService.title w with
                | Some label => if isEmpty label then "Google Search"
                                else label
                | None => "Google Search"
                end
            | None => "Google Search"
            end)
    /\ (gc = [] ->
        Forall (fun n => GeminiService.source n = "Google Search"
                         /\ GeminiService.url n = None) news).
Proof.
  intros tickers response gc news.
  unfold news, GeminiService.fetchStockNews.
  destruct (length tickers =? 0)%nat.
  { split; [intros _ [|i] item H; discriminate H | constructor]. }
  destruct (parseNews_cases response) as (Hsome & Hnone & Hempty).
  fold gc in Hsome, Hnone.
  split.
  - intros Hseg i item Hi Hgc.
    assert (Hr : GeminiService.rawItems (GeminiService.textOf response) <> []).
    { rewrite rawItems_segments.
      destruct (NewsWire.nonBlankSegments (GeminiService.textOf response));
        [now elim Hseg | discriminate]. }
    rewrite (Hsome Hr) in Hi.
    rewrite nth_error_mapFrom in Hi. cbn [Nat.add] in Hi.
    destruct (nth_error _ i) as [raw|]; [|discriminate Hi].
    cbn [option_map] in Hi. injection Hi as <-.
    assert (Hlt : (i mod length gc < length gc)%nat).
    { apply Nat.mod_upper_bound. destruct gc; [now elim Hgc | discriminate]. }
    destruct (nth_error gc (i mod length gc)) as [chunk|] eqn:Ec;
      [|apply nth_error_None in Ec; lia].
    exists chunk. split; [reflexivity|].
    unfold GeminiService.toNewsItem.
    cbn [GeminiService.url GeminiService.source].
    unfold GeminiService.chunkAt.
    destruct gc as [|c0 gc0]; [now elim Hgc|].
    rewrite Ec. cbn [GeminiService.webUri GeminiService.webTitle].
    destruct (GeminiService.web chunk) as [w|]; [|split; reflexivity].
    split; [reflexivity|].
    unfold GeminiService.orElse. destruct (GeminiService.title w); reflexivity.
  - intros Hgc.
    destruct (GeminiService.rawItems (GeminiService.textOf response))
      as [|raw rest] eqn:Er.
    + destruct (GeminiService.textOf response) as [|c r] eqn:Et.
      * rewrite (Hempty eq_refl). constructor.
      * rewrite (Hnone eq_refl) by discriminate.
        rewrite Hgc. repeat constructor.
    + rewrite Hsome by discriminate. rewrite Hgc.
      generalize 0%nat. generalize (raw :: rest).
      induction l as [|x l IH]; intros index; [constructor|].
      cbn [GeminiService.mapFrom]. constructor; [|apply IH].
      split; reflexivity.
Qed.

(** X23 on three stories and two grounding chunks: the third story has
    the link and the title of the first chunk. *)
Lemma news_sources_cycle_witness :
  exists item,
    nth_error
      (GeminiService.fetchStockNews ["ITUB"]
         (Completion.Normal
            {| GeminiService.text := Some "a :: x ||| b :: y ||| c :: z";
               GeminiService.groundingChunks :=
                 Some [Samples.grounded "https://one.example" "One";
                       Samples.grounded "https://two.example" "Two"] |})) 2
    = Some item
    /\ GeminiService.url item = Some "https://one.example"
    /\ GeminiService.source item = "One".
Proof.
  eexists. split; [reflexivity|].
  destruct (proj1 (news_sources_cycle ["ITUB"]
              {| GeminiService.text := Some "a :: x ||| b :: y ||| c :: z";
                 GeminiService.groundingChunks :=
                   Some [Samples.grounded "https://one.example" "One";
                         Samples.grounded "https://two.example" "Two"] |})
              ltac:(discriminate) 2%nat _ eq_refl ltac:(discriminate))
    as (chunk & Hc & Hu & Hs).
  injection Hc as <-. split; [exact Hu | exact Hs].
Defined.
